(** * SIGNTOSM: the PDF image extractor of [app.py]

    A shallow embedding of [src/app.py]: the helpers
    [generate_random_number] and [allowed_file], the extraction loop
    [extract_images_from_pdf], the response builder [make_response] and the
    Flask routes, followed by the properties of the specification.

    Python values are modelled as follows.
    - [str] is [string]; a character is an 8-bit [ascii], and [str.lower]
      acts on the letters A-Z (the only characters whose lower-casing the
      program can observe: it compares the result with ".jp2", ".jpx" and
      "pdf").
    - [bytes] is [list Byte.byte].
    - [int] is [Z] (or [nat] for a counter that only grows from 0).
    - [set] of hashes is [gset Z]; a [dict] with string keys is
      [gmap string _].
    - an exception is a value [Exception msg]; code that may raise lives in
      the state-and-exception monad [M]. *)

From Stdlib Require Import ZArith Lia Ascii String.
From stdpp Require Import gmap strings list pretty finite.

#[local] Open Scope Z_scope.

Abbreviation bytes := (list Byte.byte).

(** ** Python [str] operations used by the program *)

Module Str.

Definition is_upper (c : ascii) : bool :=
  let n := nat_of_ascii c in (Nat.leb 65 n) && (Nat.leb n 90).

Definition lower_char (c : ascii) : ascii :=
  if is_upper c then ascii_of_nat (nat_of_ascii c + 32) else c.

(** [s.lower()] *)
Fixpoint lower (s : string) : string :=
  match s with
  | EmptyString => EmptyString
  | String c s' => String (lower_char c) (lower s')
  end.

(** [c in s] for a one-character [c] *)
Fixpoint contains (c : ascii) (s : string) : bool :=
  match s with
  | EmptyString => false
  | String a s' => Ascii.eqb a c || contains c s'
  end.

(** [s.rfind(c)]: the highest index of [c] in [s], or [-1]. *)
Fixpoint rfind (c : ascii) (s : string) : Z :=
  match s with
  | EmptyString => -1
  | String a s' =>
      let r := rfind c s' in
      if 0 <=? r then r + 1
      else if Ascii.eqb a c then 0 else -1
  end.

(** [s[:n]] and [s[n:]] for [0 <= n] *)
Fixpoint take (n : nat) (s : string) : string :=
  match n, s with
  | S n', String a s' => String a (take n' s')
  | _, _ => EmptyString
  end.

Fixpoint drop (n : nat) (s : string) : string :=
  match n, s with
  | S n', String _ s' => drop n' s'
  | _, _ => s
  end.

(** [s[i:i+1]] *)
Definition at_index (i : Z) (s : string) : string :=
  take 1 (drop (Z.to_nat i) s).

(** [s.startswith(t)], [s.endswith(t)] *)
Definition startswith (t s : string) : bool :=
  bool_decide (take (String.length t) s = t).

Definition endswith (t s : string) : bool :=
  bool_decide (drop (String.length s - String.length t) s = t).

(** [s.rsplit(".", 1)] *)
Definition rsplit1 (c : ascii) (s : string) : list string :=
  let i := rfind c s in
  if 0 <=? i then [take (Z.to_nat i) s; drop (Z.to_nat i + 1) s] else [s].

(** ["".join(l)] *)
Definition join (l : list string) : string :=
  foldr String.append EmptyString l.

(** The characters of a string, for statements about its content. *)
Fixpoint chars (s : string) : list ascii :=
  match s with
  | EmptyString => []
  | String a s' => a :: chars s'
  end.

End Str.

(** ** [os.path] (the POSIX flavour) *)

Module os_path.

(** The loop of [genericpath._splitext] that skips leading dots:
    [true] when some character in [p[filenameIndex:dotIndex]] is not a
    dot. [n] is the number of indices still to visit. *)
Fixpoint has_non_dot (p : string) (filenameIndex : Z) (n : nat) : bool :=
  match n with
  | O => false
  | S n' =>
      if bool_decide (Str.at_index filenameIndex p ≠ ".") then true
      else has_non_dot p (filenameIndex + 1) n'
  end.

(** [os.path.splitext(p)] *)
Definition splitext (p : string) : string * string :=
  let sepIndex := Str.rfind "/" p in
  let dotIndex := Str.rfind "." p in
  if sepIndex <? dotIndex then
    let filenameIndex := sepIndex + 1 in
    if has_non_dot p filenameIndex (Z.to_nat (dotIndex - filenameIndex))
    then (Str.take (Z.to_nat dotIndex) p, Str.drop (Z.to_nat dotIndex) p)
    else (p, "")
  else (p, "").

(** [os.path.join(a, b)] *)
Definition join (a b : string) : string :=
  if Str.startswith "/" b then b
  else if bool_decide (a = "") || Str.endswith "/" a then a +:+ b
  else a +:+ "/" +:+ b.

End os_path.

(** ** Exceptions and the monad of effectful code *)

(** A Python exception; [msg] is what [str(e)] gives. *)
Inductive exn : Type := Exception (msg : string).

Definition exn_msg (e : exn) : string := let 'Exception msg := e in msg.

Inductive result (A : Type) : Type :=
| Ok (a : A)
| Raise (e : exn).
Arguments Ok {A} a.
Arguments Raise {A} e.

(** A computation over a state [S] that returns or raises; the state
    reached when an exception is raised is kept, as in Python. *)
Definition M (S A : Type) : Type := S → result A * S.

Module Monad.

Definition ret {S A} (a : A) : M S A := λ s, (Ok a, s).

Definition bind {S A B} (c : M S A) (k : A → M S B) : M S B :=
  λ s, match c s with
       | (Ok a, s') => k a s'
       | (Raise e, s') => (Raise e, s')
       end.

Definition raise {S A} (e : exn) : M S A := λ s, (Raise e, s).

Definition gets {S A} (f : S → A) : M S A := λ s, (Ok (f s), s).

Definition modify {S} (f : S → S) : M S unit := λ s, (Ok tt, f s).

(** A pure computation that may raise. *)
Definition lift {S A} (r : result A) : M S A := λ s, (r, s).

(** [try: c  except Exception as e: h e] *)
Definition try_except {S A} (c : M S A) (h : exn → M S A) : M S A :=
  λ s, match c s with
       | (Ok a, s') => (Ok a, s')
       | (Raise e, s') => h e s'
       end.

(** Run a computation on a component of the state. *)
Definition zoom {S T A} (get : S → T) (set : T → S → S) (c : M T A) : M S A :=
  λ s, let '(r, t) := c (get s) in (r, set t s).

End Monad.

Declare Scope monad_scope.
Delimit Scope monad_scope with monad.
Notation "x <- c ;; k" := (Monad.bind c (λ x, k))
  (at level 20, c at level 99, k at level 200, only parsing) : monad_scope.
Notation "c ;; k" := (Monad.bind c (λ _, k))
  (at level 100, k at level 200, only parsing, right associativity) : monad_scope.
#[local] Open Scope monad_scope.

(** ** The document, as [pypdf] presents it *)

(** [reader.pages] and [page.images] are lazy sequences: asking for the
    next element may raise. *)
Inductive gen (A : Type) : Type :=
| GDone
| GYield (a : A) (rest : gen A)
| GRaise (e : exn).
Arguments GDone {A}.
Arguments GYield {A} a rest.
Arguments GRaise {A} e.

(** An embedded image: [image.data] and [image.name]. *)
Record ImageFile : Type := mkImageFile {
  data : bytes;
  name : string
}.

Record Page : Type := mkPage { images : gen ImageFile }.

Record PdfReader : Type := mkPdfReader { pages : gen Page }.

(** ** The platform: the interpreter, the libraries and the file system

    What the program calls and this repository does not define. *)
Class Platform : Type := {
  (** the state of the file system and of the [random] module *)
  FS : Type;
  Rng : Type;
  (** [hash(b)] for [b : bytes]: a machine integer *)
  py_hash : bytes → Z;
  py_hash_range : ∀ b, - 2 ^ 63 ≤ py_hash b < 2 ^ 63;
  (** [random.randint(a, b)] *)
  randint : Z → Z → Rng → Z * Rng;
  randint_range : ∀ a b s, a ≤ b → a ≤ (randint a b s).1 ≤ b;
  (** [with open(path, "wb") as fp: fp.write(data)], also [file.save(path)] *)
  fs_write : string → bytes → M FS unit;
  (** [os.remove(path)] *)
  fs_remove : string → M FS unit;
  (** [PdfReader(path)] *)
  pdf_open : string → FS → result PdfReader;
  (** [send_from_directory(directory, filename)]: the file, if there is one *)
  fs_send : string → string → FS → option bytes;
  (** Pillow *)
  PILImage : Type;
  Image_open : bytes → result PILImage;
  Image_mode : PILImage → string;
  Image_convert : string → PILImage → result PILImage;
  Image_save : string → PILImage → result bytes;
  (** Flask: [url_for(endpoint, filename=f, _external=True)],
      [render_template(name)], [os.getcwd()] at start-up *)
  url_for : string → string → string;
  render_template : string → result string;
  getcwd : string
}.

(** JSON values, as passed to [jsonify]. *)
#[warnings="-register-all"]
Inductive json : Type :=
| JString (s : string)
| JArray (l : list json)
| JObject (m : gmap string json).

(** An uploaded file of [request.files]: its [filename] and its content. *)
Record FileStorage : Type := mkFileStorage {
  filename : string;
  stream : bytes
}.

(** The requests the application routes. *)
Inductive request : Type :=
| GET_home
| POST_images (files : gmap string FileStorage)
| GET_images (filename : string)
| GET_upload.

(** What Flask sends back: a JSON body built by [jsonify] with its status,
    a file sent as an attachment, a rendered page, or an error page. *)
Inductive response : Type :=
| Json (body : gmap string json) (status : Z)
| Attachment (content : bytes)
| Html (page : string)
| HttpError (status : Z).

(** How the body of the image loop ended: at the [continue] of the
    duplicate test, at the [continue] of the failed conversion, or at its
    last statement, having written [filename]. *)
Inductive outcome : Type :=
| Duplicate
| ConversionFailed
| Written (filename : string).

Section Program.

Context {P : Platform}.

(** The state outside the program: files, random generator, log. *)
Record World : Type := mkWorld {
  w_fs : FS;
  w_rng : Rng;
  w_log : list string
}.

Definition set_fs (fs : FS) (w : World) : World :=
  {| w_fs := fs; w_rng := w_rng w; w_log := w_log w |}.

Definition set_rng (r : Rng) (w : World) : World :=
  {| w_fs := w_fs w; w_rng := r; w_log := w_log w |}.

Definition log_append (msg : string) (w : World) : World :=
  {| w_fs := w_fs w; w_rng := w_rng w; w_log := w_log w ++ [msg] |}.

(** [logging.error(msg)] *)
Definition logging_error (msg : string) : M World unit :=
  Monad.modify (log_append msg).

Definition random_randint (a b : Z) : M World Z :=
  Monad.zoom w_rng set_rng (λ r, let '(z, r') := randint a b r in (Ok z, r')).

Definition open_write (path : string) (content : bytes) : M World unit :=
  Monad.zoom w_fs set_fs (fs_write path content).

Definition os_remove (path : string) : M World unit :=
  Monad.zoom w_fs set_fs (fs_remove path).

(** ** Flask application configuration (lines 14-17) *)

Definition UPLOAD_FOLDER : string := os_path.join getcwd "uploads".
Definition EXTRACTED_FOLDER : string := os_path.join getcwd "images".
Definition ALLOWED_EXTENSIONS : gset string := {[ "pdf" ]}.
Definition MAX_FILE_SIZE : Z := 2 * 1024 * 1024.

(** ** Helper functions (lines 30-34) *)

(** [[str(random.randint(0, 9)) for _ in range(length)]] *)
Fixpoint random_digits (length : nat) : M World (list string) :=
  match length with
  | O => Monad.ret []
  | S n =>
      d <- random_randint 0 9;;
      ds <- random_digits n;;
      Monad.ret (pretty d :: ds)
  end.

Definition generate_random_number (length : nat) : M World string :=
  ds <- random_digits length;;
  Monad.ret (Str.join ds).

(** [l[i]] *)
Definition index {A} (l : list A) (i : nat) : result A :=
  match l !! i with
  | Some a => Ok a
  | None => Raise (Exception "list index out of range")
  end.

Definition allowed_file (filename : string) : result bool :=
  if Str.contains "." filename then
    match index (Str.rsplit1 "." filename) 1 with
    | Ok ext => Ok (bool_decide (Str.lower ext ∈ ALLOWED_EXTENSIONS))
    | Raise e => Raise e
    end
  else Ok false.

(** ** [extract_images_from_pdf] (lines 36-86) *)

(** The local variables of one call, with the world it runs in. *)
Record Locals : Type := mkLocals {
  extracted_files : list string;
  seen_images : gset Z;
  image_count : nat;
  world : World
}.

Definition set_world (w : World) (st : Locals) : Locals :=
  {| extracted_files := extracted_files st;
     seen_images := seen_images st;
     image_count := image_count st;
     world := w |}.

Definition in_world {A} (c : M World A) : M Locals A :=
  Monad.zoom world set_world c.

Definition seen_add (h : Z) (st : Locals) : Locals :=
  {| extracted_files := extracted_files st;
     seen_images := {[ h ]} ∪ seen_images st;
     image_count := image_count st;
     world := world st |}.

Definition files_append (f : string) (st : Locals) : Locals :=
  {| extracted_files := extracted_files st ++ [f];
     seen_images := seen_images st;
     image_count := image_count st;
     world := world st |}.

Definition count_incr (st : Locals) : Locals :=
  {| extracted_files := extracted_files st;
     seen_images := seen_images st;
     image_count := S (image_count st);
     world := world st |}.

(** The body of the [try] of lines 55-62: open, convert the modes
    "RGBA" and "P" to "RGB", save as PNG. *)
Definition convert_to_png (image_data : bytes) : result bytes :=
  match Image_open image_data with
  | Raise e => Raise e
  | Ok img =>
      let converted :=
        if bool_decide (Image_mode img ∈ ["RGBA"; "P"])
        then Image_convert "RGB" img
        else Ok img in
      match converted with
      | Raise e => Raise e
      | Ok img => Image_save "PNG" img
      end
  end.

(** The naming logic of lines 69-74. *)
Definition make_filename (image_count : nat) (random_number ext : string) : string :=
  if (image_count =? 0)%nat then "user-img-" +:+ random_number +:+ ext
  else if (image_count =? 1)%nat then "sign-img-" +:+ random_number +:+ ext
  else random_number +:+ ext.

(** The body of [for image in page.images] (lines 45-81). *)
Definition process_image (output_path : string) (image : ImageFile) : M Locals outcome :=
  let image_data := data image in
  let image_hash := py_hash image_data in
  seen <- Monad.gets seen_images;;
  if bool_decide (image_hash ∈ seen) then Monad.ret Duplicate
  else
    Monad.modify (seen_add image_hash);;
    let ext := Str.lower (os_path.splitext (name image)).2 in
    converted <-
      (if bool_decide (ext ∈ [".jp2"; ".jpx"]) then
         Monad.try_except
           (png <- Monad.lift (convert_to_png image_data);;
            Monad.ret (Some (png, ".png")))
           (λ e, in_world (logging_error ("JP2 Conversion Failed: " +:+ exn_msg e));;
                 Monad.ret None)
       else Monad.ret (Some (image_data, ext)));;
    match converted with
    | None => Monad.ret ConversionFailed
    | Some (image_data, ext) =>
        random_number <- in_world (generate_random_number 30);;
        n <- Monad.gets image_count;;
        let filename := make_filename n random_number ext in
        let file_path := os_path.join output_path filename in
        in_world (open_write file_path image_data);;
        Monad.modify (files_append filename);;
        Monad.modify count_incr;;
        Monad.ret (Written filename)
    end.

(** [for a in g: body a] *)
Fixpoint for_each {S A B} (g : gen A) (body : A → M S B) : M S unit :=
  match g with
  | GDone => Monad.ret tt
  | GRaise e => Monad.raise e
  | GYield a rest => body a;; for_each rest body
  end.

Definition initial_locals (w : World) : Locals :=
  {| extracted_files := []; seen_images := ∅; image_count := 0; world := w |}.

(** The [try] block of lines 39-81 and its handler. *)
Definition extract_loop (pdf_file_path output_path : string) : M Locals unit :=
  Monad.try_except
    (reader <- Monad.gets (λ st, pdf_open pdf_file_path (w_fs (world st)));;
     reader <- Monad.lift reader;;
     for_each (pages reader) (λ page,
       for_each (images page) (process_image output_path)))
    (λ e, in_world (logging_error ("Failed to extract images: " +:+ exn_msg e))).

Definition extract_images_from_pdf (pdf_file_path output_path : string)
  : M World (list string) :=
  λ w, let st := (extract_loop pdf_file_path output_path (initial_locals w)).2 in
       (Ok (extracted_files st), world st).

(** ** [make_response] and the routes (lines 88-156) *)

Definition make_response (data : gmap string json) (status : Z)
  : gmap string json * Z :=
  (<[ "TG_Channel" := JString "@UNKNOWN_X_1337_BOT" ]> data, status).

Definition home : gmap string json * Z :=
  make_response {[ "status" := JString "Images Extractor Active" ]} 200.

Definition download_url (f : string) : json := JString (url_for "download_file" f).

(** Lines 133-148: the answer for the list of extracted files. *)
Definition images_response (extracted_images : list string)
  : M World (gmap string json * Z) :=
  if bool_decide (extracted_images ≠ []) then
    let images_dict : gmap string json := ∅ in
    images_dict <-
      (if bool_decide (1 ≤ length extracted_images)%nat then
         f <- Monad.lift (index extracted_images 0);;
         Monad.ret (<[ "user-image" := download_url f ]> images_dict)
       else Monad.ret images_dict);;
    images_dict <-
      (if bool_decide (2 ≤ length extracted_images)%nat then
         f <- Monad.lift (index extracted_images 1);;
         Monad.ret (<[ "sign-image" := download_url f ]> images_dict)
       else Monad.ret images_dict);;
    let images_dict :=
      if bool_decide (2 < length extracted_images)%nat then
        <[ "extra-images" :=
             JArray (download_url <$> drop 2 extracted_images) ]> images_dict
      else images_dict in
    Monad.ret (make_response
                 (<[ "images" := JObject images_dict ]>
                    (<[ "totalImages" := JString (pretty (length extracted_images)) ]>
                       {[ "message" := JString "Images extracted successfully" ]}))
                 200)
  else
    Monad.ret (make_response {[ "message" := JString "No images found in the PDF" ]} 200).

(** Lines 119-148: what [upload_file] does with a file that passed the
    four checks. *)
Definition process_upload (file : FileStorage) : M World (gmap string json * Z) :=
  random_number <- generate_random_number 30;;
  let pdf_filename := random_number +:+ ".pdf" in
  let pdf_path := os_path.join UPLOAD_FOLDER pdf_filename in
  open_write pdf_path (stream file);;
  extracted_images <- extract_images_from_pdf pdf_path EXTRACTED_FOLDER;;
  Monad.try_except (os_remove pdf_path)
    (λ e, logging_error ("Failed to delete PDF: " +:+ exn_msg e));;
  images_response extracted_images.

Definition upload_file (files : gmap string FileStorage)
  : M World (gmap string json * Z) :=
  match files !! "file" with
  | None => Monad.ret (make_response {[ "error" := JString "No file part" ]} 400)
  | Some file =>
      if bool_decide (filename file = "") then
        Monad.ret (make_response {[ "error" := JString "No selected file" ]} 400)
      else
        allowed <- Monad.lift (allowed_file (filename file));;
        if negb allowed then
          Monad.ret (make_response {[ "error" := JString "Invalid file type" ]} 400)
        else
          let size := Z.of_nat (length (stream file)) in
          if MAX_FILE_SIZE <? size then
            Monad.ret (make_response
                         {[ "error" := JString "File size exceeds 2 MB limit" ]} 400)
          else process_upload file
  end.

Definition download_file (filename : string) : M World response :=
  fs <- Monad.gets w_fs;;
  match fs_send EXTRACTED_FOLDER filename fs with
  | Some content => Monad.ret (Attachment content)
  | None => Monad.ret (HttpError 404)
  end.

Definition upload_page : M World response :=
  page <- Monad.lift (render_template "index.html");;
  Monad.ret (Html page).

(** Flask's dispatch: the view of the route, a view's [(body, status)]
    sent as JSON, an exception a view lets through answered by 500. *)
Definition serve (r : request) (w : World) : response * World :=
  let view : M World response :=
    match r with
    | GET_home => Monad.ret (Json home.1 home.2)
    | POST_images files => resp <- upload_file files;; Monad.ret (Json resp.1 resp.2)
    | GET_images filename => download_file filename
    | GET_upload => upload_page
    end in
  match view w with
  | (Ok resp, w') => (resp, w')
  | (Raise _, w') => (HttpError 500, w')
  end.

End Program.

(** * Observing a run *)

(** ** The image sequence of a document *)

(** The elements of a list, then the sequence [g]. *)
Fixpoint gen_prepend {A} (l : list A) (g : gen A) : gen A :=
  match l with
  | [] => g
  | a :: l' => GYield a (gen_prepend l' g)
  end.

Fixpoint gen_app {A} (g1 g2 : gen A) : gen A :=
  match g1 with
  | GDone => g2
  | GYield a rest => GYield a (gen_app rest g2)
  | GRaise e => GRaise e
  end.

(** The images of a document in page order, then in-page order, up to the
    first exception of the enumeration. *)
Fixpoint all_images (ps : gen Page) : gen ImageFile :=
  match ps with
  | GDone => GDone
  | GYield p rest => gen_app (images p) (all_images rest)
  | GRaise e => GRaise e
  end.

(** The elements a sequence yields. *)
Fixpoint gen_items {A} (g : gen A) : list A :=
  match g with
  | GYield a rest => a :: gen_items rest
  | _ => []
  end.

Section Extraction.

Context {P : Platform}.

(** One entry per image the loop reaches: the state before its body, how
    the body ended, the state after. *)
Record step : Type := mkStep {
  s_image : ImageFile;
  s_before : Locals;
  s_result : result outcome;
  s_after : Locals
}.

Fixpoint trace (output_path : string) (g : gen ImageFile) (st : Locals) : list step :=
  match g with
  | GYield image rest =>
      let '(r, st') := process_image output_path image st in
      mkStep image st r st' ::
        match r with
        | Ok _ => trace output_path rest st'
        | Raise _ => []
        end
  | _ => []
  end.

(** The file names of the steps that wrote a file. *)
Definition written (tr : list step) : list string :=
  omap (λ s, match s_result s with Ok (Written f) => Some f | _ => None end) tr.

(** The extension of the output file of an image: [.png] for the
    JPEG2000 family, the lower-cased declared one otherwise. *)
Definition declared_ext (image : ImageFile) : string :=
  Str.lower (os_path.splitext (name image)).2.

Definition is_jpeg2000 (image : ImageFile) : bool :=
  bool_decide (declared_ext image ∈ [".jp2"; ".jpx"]).

Definition output_ext (image : ImageFile) : string :=
  if is_jpeg2000 image then ".png" else declared_ext image.

Definition output_data (image : ImageFile) : result bytes :=
  if is_jpeg2000 image then convert_to_png (data image) else Ok (data image).

(** What a run shows of a step: its image, its result, and
    whether the hash of the image was seen before. *)
Definition observe (s : step) : ImageFile * result outcome * bool :=
  (s_image s, s_result s,
   bool_decide (py_hash (data (s_image s)) ∈ seen_images (s_before s))).

End Extraction.

Definition is_digit (c : ascii) : bool :=
  let n := nat_of_ascii c in Nat.leb 48 n && Nat.leb n 57.

(** A string of decimal digits. *)
Definition numeric (s : string) : Prop := Forall (λ c, is_digit c = true) (Str.chars s).

(** The prefix of the file name of the image at a position. *)
Definition position_prefix (position : nat) : string :=
  match position with
  | 0%nat => "user-img-"
  | 1%nat => "sign-img-"
  | _ => ""
  end.

(** An extension as [splitext] gives it: empty, or a dot followed by
    neither a dot nor a slash. *)
Definition is_ext (e : string) : Prop :=
  e = "" ∨ ∃ t, e = String "." t ∧ Str.contains "." t = false ∧ Str.contains "/" t = false.

(** Pillow's modes with a palette ("P", "PA") or with an alpha channel
    ("LA", "PA", "RGBA", and the premultiplied "La", "RGBa"). *)
Definition indexed_or_alpha (mode : string) : bool :=
  bool_decide (mode ∈ ["P"; "PA"; "LA"; "RGBA"; "La"; "RGBa"]).

(** A file name whose part after the last dot is "pdf", in any case. *)
Definition has_pdf_extension (s : string) : Prop :=
  ∃ stem ext, s = stem +:+ "." +:+ ext
              ∧ Str.contains "." ext = false ∧ Str.lower ext = "pdf".

(** The value of the channel tag that [make_response] attaches. *)
Definition TG_Channel : json := JString "@UNKNOWN_X_1337_BOT".

(** A result list named by position: the name at position [i] is the
    prefix of that position, 30 digits and an extension that is not of the
    JPEG2000 family. *)
Definition positional (files : list string) : Prop :=
  ∀ (i : nat) f, files !! i = Some f →
    ∃ rn ext, f = position_prefix i +:+ rn +:+ ext
              ∧ String.length rn = 30%nat ∧ numeric rn
              ∧ is_ext ext ∧ ext ∉ [".jp2"; ".jpx"].

(** The hashes of a list of images. *)
Definition fingerprints {P : Platform} (l : list ImageFile) : gset Z :=
  list_to_set (py_hash ∘ data <$> l).

(** * A small platform, to run the program on concrete inputs *)

Module Toy.

(** A file system is a map from paths to contents; writing succeeds on
    the paths [writable] accepts. *)
Definition write (writable : string → bool) (path : string) (content : bytes)
  : M (gmap string bytes) unit :=
  λ fs, if writable path then (Ok tt, <[ path := content ]> fs)
        else (Raise (Exception "Permission denied"), fs).

Definition remove (path : string) : M (gmap string bytes) unit :=
  λ fs, match fs !! path with
        | Some _ => (Ok tt, delete path fs)
        | None => (Raise (Exception "No such file or directory"), fs)
        end.

Definition open_pdf (parse : bytes → result PdfReader) (path : string)
    (fs : gmap string bytes) : result PdfReader :=
  match fs !! path with
  | Some content => parse content
  | None => Raise (Exception "No such file or directory")
  end.

(** A polynomial hash kept below [2 ^ 61]. *)
Definition poly_hash (b : bytes) : Z :=
  foldr (λ x acc, (acc * 257 + Z.of_N (Byte.to_N x) + 1) mod 2 ^ 61) 0 b.

(** A linear congruential generator; [randint a b] is taken from the
    high bits of its next state. *)
Definition lcg_randint (a b : Z) (s : Z) : Z * Z :=
  let s' := (s * 1103515245 + 12345) mod 2 ^ 31 in
  (a + (s' / 65536) mod (b - a + 1), s').

(** Images: the first byte of the payload tells the mode, [xff] an
    undecodable payload; the rest is the pixel data. A PNG file has the
    signature byte [x89] in front. *)
Definition mode_of_byte (x : Byte.byte) : string :=
  match x with
  | Byte.x00 => "RGB"
  | Byte.x01 => "RGBA"
  | Byte.x02 => "P"
  | Byte.x03 => "LA"
  | _ => "L"
  end.

Definition byte_of_mode (m : string) : Byte.byte :=
  if bool_decide (m = "RGB") then Byte.x00
  else if bool_decide (m = "RGBA") then Byte.x01
  else if bool_decide (m = "P") then Byte.x02
  else if bool_decide (m = "LA") then Byte.x03
  else Byte.x04.

Definition image_open (b : bytes) : result (string * bytes) :=
  match b with
  | [] => Raise (Exception "cannot identify image file")
  | Byte.xff :: _ => Raise (Exception "broken data stream")
  | Byte.x89 :: x :: pixels => Ok (mode_of_byte x, pixels)
  | x :: pixels => Ok (mode_of_byte x, pixels)
  end.

(** The PNG file of an image: the signature byte [x89], the mode, the
    pixels. *)
Definition image_save (format : string) (img : string * bytes) : result bytes :=
  if bool_decide (format = "PNG") then Ok (Byte.x89 :: byte_of_mode img.1 :: img.2)
  else Raise (Exception "unknown file extension").

Definition poly_hash_range b : - 2 ^ 63 ≤ poly_hash b < 2 ^ 63.
Proof.
  destruct b as [|x b]; simpl; [lia|].
  pose proof (Z.mod_pos_bound (poly_hash b * 257 + Z.of_N (Byte.to_N x) + 1) (2 ^ 61)).
  lia.
Qed.

Definition lcg_randint_range a b s : a ≤ b → a ≤ (lcg_randint a b s).1 ≤ b.
Proof.
  intros Hab. unfold lcg_randint. cbv zeta. cbn [fst].
  pose proof (Z.mod_pos_bound (((s * 1103515245 + 12345) mod 2 ^ 31) / 65536) (b - a + 1)).
  lia.
Qed.

(** The platform with hash [h], writable paths [writable] and PDF parser
    [parse]. *)
Definition platform (h : bytes → Z) (Hh : ∀ b, - 2 ^ 63 ≤ h b < 2 ^ 63)
    (writable : string → bool) (parse : bytes → result PdfReader) : Platform :=
  {| FS := gmap string bytes;
     Rng := Z;
     py_hash := h;
     py_hash_range := Hh;
     randint := lcg_randint;
     randint_range := lcg_randint_range;
     fs_write := write writable;
     fs_remove := remove;
     pdf_open := open_pdf parse;
     fs_send := λ directory filename fs, fs !! os_path.join directory filename;
     PILImage := string * bytes;
     Image_open := image_open;
     Image_mode := fst;
     Image_convert := λ mode img, Ok (mode, img.2);
     Image_save := image_save;
     url_for := λ endpoint f, "http://localhost/images/" +:+ f;
     render_template := λ _, Ok "<form></form>";
     getcwd := "/app" |}.

(** A document given by the images of each of its pages. *)
Definition document (pages : list (list ImageFile)) : PdfReader :=
  mkPdfReader (gen_prepend ((λ l, mkPage (gen_prepend l GDone)) <$> pages) GDone).

(** The usual instance: the polynomial hash, every path writable. *)
Definition std (parse : bytes → result PdfReader) : Platform :=
  platform poly_hash poly_hash_range (λ _, true) parse.

(** Nothing can be written under [/app/uploads]. *)
Definition read_only_uploads (parse : bytes → result PdfReader) : Platform :=
  platform poly_hash poly_hash_range
    (λ path, negb (Str.startswith "/app/uploads" path)) parse.

(** Nothing can be written outside [/app/images]. *)
Definition images_only (parse : bytes → result PdfReader) : Platform :=
  platform poly_hash poly_hash_range
    (λ path, Str.startswith "/app/images" path) parse.

(** Only the files of the first two positions can be written. *)
Definition two_files_only (parse : bytes → result PdfReader) : Platform :=
  platform poly_hash poly_hash_range
    (λ path, Str.contains "-" path) parse.

Definition start {P : Platform} (fs : FS) (r : Rng) : World :=
  {| w_fs := fs; w_rng := r; w_log := [] |}.

End Toy.

(** * Sample documents and requests *)

Module Sample.

Definition photo : ImageFile := mkImageFile [Byte.x00; Byte.x11; Byte.x12] "Im0.png".
Definition signature : ImageFile := mkImageFile [Byte.x01; Byte.x21] "Im1.JP2".
Definition broken : ImageFile := mkImageFile [Byte.xff; Byte.x31] "Im2.jpx".
Definition stamp : ImageFile := mkImageFile [Byte.x03; Byte.x41] "Im3.jp2".
Definition logo : ImageFile := mkImageFile [Byte.x00; Byte.x51] "Im4.JPG".

(** Two pages: the photo is on both, the undecodable image twice on the
    second. *)
Definition form : PdfReader :=
  Toy.document [[photo; signature]; [photo; broken; stamp; broken]].

(** Three images with different bytes, all decodable. *)
Definition card : PdfReader := Toy.document [[photo; signature]; [logo]].

(** Two images whose payloads differ in every byte and have one hash:
    byte by byte their difference is 1, -8, 28, -56, 70, -56, 28, -8, 1,
    the coefficients of [(1 - x) ^ 8], and [(1 - 257) ^ 8 = 2 ^ 64] is 0
    modulo [2 ^ 61]. *)
Definition seal : ImageFile :=
  mkImageFile [Byte.x01; Byte.x00; Byte.x1c; Byte.x00; Byte.x46;
               Byte.x00; Byte.x1c; Byte.x00; Byte.x01] "Im0.png".
Definition crest : ImageFile :=
  mkImageFile [Byte.x00; Byte.x08; Byte.x00; Byte.x38; Byte.x00;
               Byte.x38; Byte.x00; Byte.x08; Byte.x00] "Im1.jpg".

Definition twins : PdfReader := Toy.document [[seal; crest]].

(** One JPEG2000 image of mode "LA". *)
Definition scan : PdfReader := Toy.document [[stamp]].

(** Two pages without images. *)
Definition blank : PdfReader := Toy.document [[]; []].

Definition out : string := "/app/images".
Definition path : string := "/app/uploads/in.pdf".

(** The platforms that open these documents, and their worlds at the
    start: the uploaded file is in place, the generator is seeded with 1. *)
Definition P_form : Platform := Toy.std (λ _, Ok form).
Definition w_form : @World P_form := @Toy.start P_form {[ path := [Byte.x25] ]} 1.

Definition P_card : Platform := Toy.std (λ _, Ok card).
Definition w_card : @World P_card := @Toy.start P_card {[ path := [Byte.x25] ]} 1.

Definition P_card_images : Platform := Toy.images_only (λ _, Ok card).
Definition w_card_images : @World P_card_images :=
  @Toy.start P_card_images {[ path := [Byte.x25] ]} 1.

Definition P_card_two : Platform := Toy.two_files_only (λ _, Ok card).
Definition w_card_two : @World P_card_two :=
  @Toy.start P_card_two {[ path := [Byte.x25] ]} 1.

Definition P_twins : Platform := Toy.std (λ _, Ok twins).
Definition w_twins : @World P_twins := @Toy.start P_twins {[ path := [Byte.x25] ]} 1.

Definition P_scan : Platform := Toy.std (λ _, Ok scan).
Definition w_scan : @World P_scan := @Toy.start P_scan {[ path := [Byte.x25] ]} 1.

Definition P_no_upload : Platform := Toy.read_only_uploads (λ _, Ok card).
Definition w_no_upload : @World P_no_upload := @Toy.start P_no_upload ∅ 1.

Definition P_blank : Platform := Toy.std (λ _, Ok blank).

(** No upload parses. *)
Definition P_corrupt : Platform :=
  Toy.std (λ _, Raise (Exception "EOF marker not found")).

(** An upload named "scan.PDF" of [n] bytes. *)
Definition upload (n : nat) : FileStorage :=
  mkFileStorage "scan.PDF" (replicate n Byte.x25).

(** The form with the photo only once, and a platform that opens the
    form at [path] and this document at [path']. *)
Definition form_once : PdfReader :=
  Toy.document [[photo; signature]; [broken; stamp; broken]].

Definition path' : string := "/app/uploads/once.pdf".

Definition P_forms : Platform :=
  Toy.std (λ content, match content with
                      | [Byte.x26] => Ok form_once
                      | _ => Ok form
                      end).
Definition w_forms : @World P_forms :=
  @Toy.start P_forms {[ path := [Byte.x25]; path' := [Byte.x26] ]} 1.

End Sample.

(** * Properties *)

(** ** Digits and random names *)

Lemma chars_app s t : Str.chars (s +:+ t) = Str.chars s ++ Str.chars t.
Proof. induction s as [|a s IH]; simpl; [done|]. by rewrite IH. Qed.

Lemma length_chars s : length (Str.chars s) = String.length s.
Proof. induction s as [|a s IH]; simpl; [done|]. by rewrite IH. Qed.

Lemma string_length_app s t :
  String.length (s +:+ t) = (String.length s + String.length t)%nat.
Proof. induction s as [|a s IH]; simpl; [done|]. by rewrite IH. Qed.

Lemma pretty_digit (z : Z) :
  0 ≤ z ≤ 9 → ∃ c, pretty z = String c "" ∧ is_digit c = true.
Proof.
  intros Hz.
  assert (Hcases : z = 0 ∨ z = 1 ∨ z = 2 ∨ z = 3 ∨ z = 4 ∨ z = 5 ∨ z = 6
                   ∨ z = 7 ∨ z = 8 ∨ z = 9) by lia.
  repeat (destruct Hcases as [-> | Hcases]); [..| subst z];
    eexists; (split; [vm_compute; reflexivity | reflexivity]).
Qed.

Section Extraction_facts.

Context {P : Platform}.

Lemma set_rng_id (w : World) : set_rng (w_rng w) w = w.
Proof. by destruct w. Qed.

Lemma random_digits_spec n (w : World) :
  ∃ ds r, random_digits n w = (Ok ds, set_rng r w)
          ∧ String.length (Str.join ds) = n ∧ numeric (Str.join ds).
Proof.
  revert w. induction n as [|n IH]; intros w.
  - exists [], (w_rng w). rewrite set_rng_id. repeat split. constructor.
  - simpl. unfold Monad.bind, random_randint, Monad.zoom.
    pose proof (randint_range 0 9 (w_rng w) ltac:(lia)) as Hd.
    destruct (randint 0 9 (w_rng w)) as [d r1]. simpl in Hd.
    destruct (IH (set_rng r1 w)) as (ds & r & -> & Hlen & Hnum).
    destruct (pretty_digit d Hd) as (c & Hc & Hdig).
    exists (pretty d :: ds), r. split; [done|].
    change (Str.join (pretty d :: ds)) with (pretty d +:+ Str.join ds).
    rewrite Hc. split.
    + rewrite string_length_app, Hlen. done.
    + unfold numeric. rewrite chars_app. apply Forall_app. split; [|done].
      by repeat constructor.
Qed.

Lemma generate_random_number_spec n (w : World) :
  ∃ s r, generate_random_number n w = (Ok s, set_rng r w)
         ∧ String.length s = n ∧ numeric s.
Proof.
  destruct (random_digits_spec n w) as (ds & r & Hds & Hlen & Hnum).
  exists (Str.join ds), r. unfold generate_random_number, Monad.bind.
  by rewrite Hds.
Qed.

(** *** The three ways through the loop body *)

Lemma process_image_duplicate out image (st : Locals) :
  py_hash (data image) ∈ seen_images st →
  process_image out image st = (Ok Duplicate, st).
Proof.
  intros Hin. unfold process_image, Monad.bind, Monad.gets, Monad.ret.
  by rewrite bool_decide_eq_true_2.
Qed.

Lemma process_image_conversion_failed out image (st : Locals) e :
  py_hash (data image) ∉ seen_images st →
  is_jpeg2000 image = true →
  convert_to_png (data image) = Raise e →
  process_image out image st =
    (Ok ConversionFailed,
     set_world (log_append ("JP2 Conversion Failed: " +:+ exn_msg e) (world st))
       (seen_add (py_hash (data image)) st)).
Proof.
  intros Hnin Hjp Hconv.
  unfold process_image, Monad.bind, Monad.gets, Monad.ret, Monad.modify.
  rewrite bool_decide_eq_false_2 by done.
  unfold is_jpeg2000, declared_ext in Hjp. rewrite Hjp.
  unfold Monad.try_except, Monad.bind, Monad.lift. rewrite Hconv.
  done.
Qed.

Lemma process_image_write out image (st : Locals) payload rn r :
  py_hash (data image) ∉ seen_images st →
  output_data image = Ok payload →
  generate_random_number 30 (world st) = (Ok rn, set_rng r (world st)) →
  process_image out image st =
    let fn := make_filename (image_count st) rn (output_ext image) in
    let st1 := seen_add (py_hash (data image)) st in
    match fs_write (os_path.join out fn) payload (w_fs (world st)) with
    | (Ok _, fs') =>
        (Ok (Written fn),
         count_incr (files_append fn
           (set_world (set_fs fs' (set_rng r (world st))) st1)))
    | (Raise e, fs') =>
        (Raise e, set_world (set_fs fs' (set_rng r (world st))) st1)
    end.
Proof.
  intros Hnin Hout Hrn.
  unfold process_image, Monad.bind, Monad.gets, Monad.ret, Monad.modify.
  rewrite bool_decide_eq_false_2 by done.
  unfold output_data, output_ext, is_jpeg2000, declared_ext in *.
  destruct (bool_decide (Str.lower (os_path.splitext (name image)).2 ∈ [".jp2"; ".jpx"])).
  - unfold Monad.try_except, Monad.bind, Monad.lift, Monad.ret. rewrite Hout.
    unfold in_world, Monad.zoom. simpl. rewrite Hrn. simpl.
    unfold open_write, Monad.zoom. simpl.
    destruct (fs_write _ _ _) as [[[]|e'] fs']; done.
  - injection Hout as <-.
    unfold in_world, Monad.zoom. simpl. rewrite Hrn. simpl.
    unfold open_write, Monad.zoom. simpl.
    destruct (fs_write _ _ _) as [[[]|e'] fs']; done.
Qed.

(** Every run of the body is one of the three. *)
Lemma process_image_cases out image (st : Locals) :
  let h := py_hash (data image) in
  (h ∈ seen_images st ∧ process_image out image st = (Ok Duplicate, st))
  ∨ ((h ∉ seen_images st) ∧ is_jpeg2000 image = true ∧
     ∃ e, convert_to_png (data image) = Raise e ∧
          process_image out image st =
            (Ok ConversionFailed,
             set_world (log_append ("JP2 Conversion Failed: " +:+ exn_msg e) (world st))
               (seen_add h st)))
  ∨ ((h ∉ seen_images st) ∧
     ∃ payload rn r fs' res,
       output_data image = Ok payload ∧
       String.length rn = 30%nat ∧ numeric rn ∧
       let fn := make_filename (image_count st) rn (output_ext image) in
       let w' := set_fs fs' (set_rng r (world st)) in
       fs_write (os_path.join out fn) payload (w_fs (world st)) = (res, fs') ∧
       process_image out image st =
         match res with
         | Ok _ => (Ok (Written fn),
                    count_incr (files_append fn (set_world w' (seen_add h st))))
         | Raise e => (Raise e, set_world w' (seen_add h st))
         end).
Proof.
  intros h. destruct (decide (h ∈ seen_images st)) as [Hin|Hnin].
  { left. split; [done|]. by apply process_image_duplicate. }
  right. destruct (output_data image) as [payload|e] eqn:Hout.
  - right. split; [done|].
    destruct (generate_random_number_spec 30 (world st)) as (rn & r & Hrn & Hlen & Hnum).
    destruct (fs_write (os_path.join out (make_filename (image_count st) rn (output_ext image)))
                payload (w_fs (world st))) as [res fs'] eqn:Hw.
    exists payload, rn, r, fs', res. repeat (split; [done|]).
    rewrite (process_image_write _ _ _ _ _ _ Hnin Hout Hrn). cbv zeta.
    rewrite Hw. by destruct res as [[]|].
  - left. split; [done|]. unfold output_data in Hout.
    destruct (is_jpeg2000 image) eqn:Hjp; [|done].
    split; [done|]. exists e. split; [done|].
    by apply process_image_conversion_failed.
Qed.

(** *** The loops *)

Lemma for_each_app {S A B} (g1 g2 : gen A) (body : A → M S B) (s : S) :
  for_each (gen_app g1 g2) body s =
  Monad.bind (for_each g1 body) (λ _, for_each g2 body) s.
Proof.
  revert s. induction g1 as [|a rest IH|e]; intros s; simpl; [done| |done].
  unfold Monad.bind in *. destruct (body a s) as [[b|e] s']; [apply IH|done].
Qed.

(** The nested loops visit the images in page order, then in-page order. *)
Lemma for_each_pages {S B} (ps : gen Page) (body : ImageFile → M S B) (s : S) :
  for_each ps (λ page, for_each (images page) body) s =
  for_each (all_images ps) body s.
Proof.
  revert s. induction ps as [|p rest IH|e]; intros s; simpl; [done| |done].
  rewrite for_each_app. unfold Monad.bind.
  destruct (for_each (images p) body s) as [[[]|e] s']; [apply IH|done].
Qed.

Lemma for_each_prepend_ok {S A B} (l : list A) (g : gen A) (body : A → M S B) (s s1 : S) :
  for_each (gen_prepend l GDone) body s = (Ok tt, s1) →
  for_each (gen_prepend l g) body s = for_each g body s1.
Proof.
  revert s. induction l as [|a l IH]; intros s; simpl.
  - unfold Monad.ret. by intros [= ->].
  - unfold Monad.bind. destruct (body a s) as [[b|e] s']; [apply IH|done].
Qed.

(** What [extract_images_from_pdf] returns, by the three ways its [try]
    block can end. *)
Lemma extract_images_from_pdf_eq path out (w : World) :
  extract_images_from_pdf path out w =
  match pdf_open path (w_fs w) with
  | Raise e => (Ok [], log_append ("Failed to extract images: " +:+ exn_msg e) w)
  | Ok reader =>
      match for_each (all_images (pages reader)) (process_image out) (initial_locals w) with
      | (Ok _, st) => (Ok (extracted_files st), world st)
      | (Raise e, st) =>
          (Ok (extracted_files st),
           log_append ("Failed to extract images: " +:+ exn_msg e) (world st))
      end
  end.
Proof.
  unfold extract_images_from_pdf, extract_loop, Monad.try_except, Monad.bind,
    Monad.gets, Monad.lift. simpl.
  destruct (pdf_open path (w_fs w)) as [reader|e]; [|done].
  rewrite for_each_pages.
  by destruct (for_each _ _ _) as [[[]|e] st].
Qed.

(** *** The set of seen hashes only grows, and holds every image reached *)

Lemma process_image_seen out image (st st' : Locals) r :
  process_image out image st = (r, st') →
  seen_images st ⊆ seen_images st' ∧ py_hash (data image) ∈ seen_images st'.
Proof.
  intros Hstep.
  destruct (process_image_cases out image st)
    as [[Hin Heq] | [(Hnin & _ & e & _ & Heq) | (Hnin & pl & rn & r' & fs' & res & _ & _ & _ & _ & Heq)]];
    rewrite Heq in Hstep.
  - injection Hstep as <- <-. done.
  - injection Hstep as <- <-. simpl. set_solver.
  - destruct res as [[]|e]; injection Hstep as <- <-; simpl; set_solver.
Qed.

Lemma trace_step out g (st : Locals) s :
  s ∈ trace out g st →
  process_image out (s_image s) (s_before s) = (s_result s, s_after s).
Proof.
  revert st. induction g as [|image rest IH|e]; intros st; simpl; [by intros ?%elem_of_nil| |by intros ?%elem_of_nil].
  destruct (process_image out image st) as [r st'] eqn:Hstep.
  intros [->|Hin]%elem_of_cons; [done|].
  destruct r; [by eapply IH|by apply elem_of_nil in Hin].
Qed.

Lemma trace_seen out g (st : Locals) s :
  s ∈ trace out g st → seen_images st ⊆ seen_images (s_before s).
Proof.
  revert st. induction g as [|image rest IH|e]; intros st; simpl; [by intros ?%elem_of_nil| |by intros ?%elem_of_nil].
  destruct (process_image out image st) as [r st'] eqn:Hstep.
  intros [->|Hin]%elem_of_cons; [done|].
  destruct r; [|by apply elem_of_nil in Hin].
  apply process_image_seen in Hstep as [Hsub _].
  etrans; [exact Hsub|]. by eapply IH.
Qed.

(** An earlier step ended normally, and its image's hash is in the set
    every later step starts with. *)
Lemma trace_earlier out g (st : Locals) (i j : nat) si sj :
  (i < j)%nat →
  trace out g st !! i = Some si → trace out g st !! j = Some sj →
  (∃ o, s_result si = Ok o) ∧ py_hash (data (s_image si)) ∈ seen_images (s_before sj).
Proof.
  revert st i j. induction g as [|image rest IH|e]; intros st i j Hij; simpl; [done| |done].
  destruct (process_image out image st) as [r st'] eqn:Hstep.
  destruct j as [|j]; [lia|]. destruct i as [|i]; simpl.
  - intros [= <-] Hj. simpl. destruct r as [o|e]; [|done].
    split; [by eauto|].
    apply process_image_seen in Hstep as [_ Hin].
    apply list_elem_of_lookup_2 in Hj. apply trace_seen in Hj. exact (Hj _ Hin).
  - intros Hi Hj. destruct r as [o|e]; [|done].
    eapply IH; [|done..]. lia.
Qed.

(** The images of the steps are the first images of the sequence. *)
Lemma trace_images out g (st : Locals) :
  s_image <$> trace out g st `prefix_of` gen_items g.
Proof.
  revert st. induction g as [|image rest IH|e]; intros st; simpl; [done| |done].
  destruct (process_image out image st) as [r st'].
  simpl. apply prefix_cons. destruct r; [apply IH|apply prefix_nil].
Qed.

(** Consecutive steps: a step starts in the state the previous one left. *)
Lemma trace_consecutive out g (st : Locals) (j : nat) s s' :
  trace out g st !! j = Some s → trace out g st !! S j = Some s' →
  s_before s' = s_after s.
Proof.
  revert st j. induction g as [|image rest IH|e]; intros st j; simpl; [done| |done].
  destruct (process_image out image st) as [r st'] eqn:Hstep.
  destruct j as [|j]; simpl.
  - intros [= <-]. destruct r; [|done]. simpl.
    destruct rest as [|image' rest'|e']; simpl; [done| |done].
    destruct (process_image out image' st'). by intros [= <-].
  - destruct r; [|done]. apply IH.
Qed.

(** The result list is the initial one followed by the names the steps
    wrote, in order. *)
Lemma for_each_written out g (st : Locals) :
  extracted_files (for_each g (process_image out) st).2 =
  extracted_files st ++ written (trace out g st).
Proof.
  revert st. induction g as [|image rest IH|e]; intros st; simpl;
    [by rewrite app_nil_r| |by rewrite app_nil_r].
  unfold Monad.bind.
  destruct (process_image_cases out image st)
    as [[Hin Heq] | [(Hnin & _ & e & _ & Heq) | (Hnin & pl & rn & r' & fs' & res & _ & _ & _ & _ & Heq)]];
    rewrite Heq.
  - rewrite IH. done.
  - rewrite IH. done.
  - destruct res as [[]|e].
    + rewrite IH. unfold written. simpl. by rewrite <- app_assoc.
    + simpl. by rewrite app_nil_r.
Qed.


(** The body raises only when writing the file fails; nothing has been
    appended to the result then. *)
Lemma process_image_raises out image (st st' : Locals) e :
  process_image out image st = (Raise e, st') →
  extracted_files st' = extracted_files st ∧ image_count st' = image_count st
  ∧ ∃ file_path payload r,
      fs_write file_path payload (w_fs (world st)) = (Raise e, w_fs (world st'))
      ∧ output_data image = Ok payload
      ∧ world st' = set_fs (w_fs (world st')) (set_rng r (world st)).
Proof.
  intros Hstep.
  destruct (process_image_cases out image st)
    as [[Hin Heq] | [(Hnin & _ & e' & _ & Heq) | (Hnin & pl & rn & r' & fs' & res & Hout & _ & _ & Hw & Heq)]];
    rewrite Heq in Hstep; [done..|].
  destruct res as [[]|e']; [done|]. injection Hstep as <- <-. simpl.
  repeat split. eauto 10.
Qed.

End Extraction_facts.

(** ** Strings, extensions and file names *)

Lemma rfind_ge c s : -1 ≤ Str.rfind c s.
Proof.
  induction s as [|a s IH]; simpl; [done|].
  destruct (0 <=? Str.rfind c s) eqn:Hr; [lia|]. destruct (Ascii.eqb a c); lia.
Qed.

Lemma rfind_lt c s : Str.rfind c s < Z.of_nat (String.length s).
Proof.
  induction s as [|a s IH]; simpl String.length; simpl Str.rfind; [lia|].
  destruct (0 <=? Str.rfind c s) eqn:Hr; [lia|]. destruct (Ascii.eqb a c); lia.
Qed.

Lemma rfind_absent c s : Str.contains c s = false ↔ Str.rfind c s = -1.
Proof.
  induction s as [|a s IH]; simpl; [done|].
  pose proof (rfind_ge c s) as Hge.
  destruct (0 <=? Str.rfind c s) eqn:Hr.
  - apply Z.leb_le in Hr. split.
    + intros [_ Hc]%orb_false_iff. apply IH in Hc. lia.
    + lia.
  - apply Z.leb_gt in Hr. assert (Hm : Str.rfind c s = -1) by lia.
    apply IH in Hm. rewrite Hm, orb_false_r.
    destruct (Ascii.eqb a c); [split; [done|lia]|done].
Qed.

Lemma rfind_app c s t :
  Str.rfind c (s +:+ t) =
  if 0 <=? Str.rfind c t then Z.of_nat (String.length s) + Str.rfind c t
  else Str.rfind c s.
Proof.
  induction s as [|a s IH].
  - change ("" +:+ t) with t. simpl.
    destruct (0 <=? Str.rfind c t) eqn:Hr; [done|].
    apply Z.leb_gt in Hr. pose proof (rfind_ge c t). lia.
  - change (String a s +:+ t) with (String a (s +:+ t)).
    simpl Str.rfind. simpl String.length. rewrite IH.
    destruct (0 <=? Str.rfind c t) eqn:Hr.
    + apply Z.leb_le in Hr.
      rewrite (proj2 (Z.leb_le 0 _)) by lia. lia.
    + done.
Qed.

Lemma contains_app c s t :
  Str.contains c (s +:+ t) = Str.contains c s || Str.contains c t.
Proof.
  induction s as [|a s IH]; [done|].
  change (String a s +:+ t) with (String a (s +:+ t)). simpl.
  by rewrite IH, orb_assoc.
Qed.

Lemma take_app_length s t : Str.take (String.length s) (s +:+ t) = s.
Proof.
  induction s as [|a s IH]; [by destruct t|].
  change (String a s +:+ t) with (String a (s +:+ t)). simpl. by rewrite IH.
Qed.

Lemma drop_app_length s t : Str.drop (String.length s) (s +:+ t) = t.
Proof.
  induction s as [|a s IH]; [by destruct t|].
  change (String a s +:+ t) with (String a (s +:+ t)). simpl. by rewrite IH.
Qed.

Lemma take_drop (n : nat) s : Str.take n s +:+ Str.drop n s = s.
Proof.
  revert s. induction n as [|n IH]; intros [|a s]; simpl; try done.
  change (String a (Str.take n s) +:+ Str.drop n s)
    with (String a (Str.take n s +:+ Str.drop n s)).
  by rewrite IH.
Qed.

(** What lies from the last occurrence of [c] on: [c], then no [c]. *)
Lemma drop_rfind c s :
  0 ≤ Str.rfind c s →
  ∃ t, Str.drop (Z.to_nat (Str.rfind c s)) s = String c t ∧ Str.contains c t = false.
Proof.
  induction s as [|a s IH]; simpl; [lia|].
  destruct (0 <=? Str.rfind c s) eqn:Hr.
  - apply Z.leb_le in Hr. intros _.
    replace (Z.to_nat (Str.rfind c s + 1)) with (S (Z.to_nat (Str.rfind c s))) by lia.
    simpl. by apply IH.
  - apply Z.leb_gt in Hr. destruct (Ascii.eqb a c) eqn:Ha; [|lia].
    intros _. apply Ascii.eqb_eq in Ha as ->. simpl. exists s. split; [done|].
    apply rfind_absent. pose proof (rfind_ge c s). lia.
Qed.

(** No [c] after its last occurrence. *)
Lemma contains_drop_after c s (n : nat) :
  Str.rfind c s < Z.of_nat n → Str.contains c (Str.drop n s) = false.
Proof.
  revert n. induction s as [|a s IH]; intros n; simpl.
  - by destruct n.
  - destruct (0 <=? Str.rfind c s) eqn:Hr.
    + apply Z.leb_le in Hr. intros Hn. destruct n as [|n]; [lia|].
      simpl. apply IH. lia.
    + apply Z.leb_gt in Hr. destruct n as [|n].
      * destruct (Ascii.eqb a c) eqn:Ha; [lia|]. intros _. simpl. rewrite Ha. simpl.
        apply rfind_absent. pose proof (rfind_ge c s). lia.
      * intros _. simpl. apply IH. lia.
Qed.

Lemma contains_drop_mono c s (n : nat) :
  Str.contains c s = false → Str.contains c (Str.drop n s) = false.
Proof.
  intros Hc. apply contains_drop_after. apply rfind_absent in Hc.
  rewrite Hc. lia.
Qed.

Lemma splitext_is_ext p : is_ext (os_path.splitext p).2.
Proof.
  unfold os_path.splitext. cbv zeta.
  destruct (Str.rfind "/" p <? Str.rfind "." p) eqn:Hlt; [|by left].
  destruct (os_path.has_non_dot _ _ _); [|by left].
  simpl. right. apply Z.ltb_lt in Hlt.
  pose proof (rfind_ge "/" p) as Hsep.
  destruct (drop_rfind "." p ltac:(lia)) as (t & Ht & Hdot).
  exists t. split; [done|]. split; [done|].
  pose proof (contains_drop_after "/" p (Z.to_nat (Str.rfind "." p)) ltac:(lia)) as Hs.
  rewrite Ht in Hs. exact Hs.
Qed.

Lemma lower_char_dot a : Ascii.eqb (Str.lower_char a) "." = Ascii.eqb a ".".
Proof. by destruct a as [[] [] [] [] [] [] [] []]. Qed.

Lemma lower_char_slash a : Ascii.eqb (Str.lower_char a) "/" = Ascii.eqb a "/".
Proof. by destruct a as [[] [] [] [] [] [] [] []]. Qed.

Lemma contains_lower_dot s : Str.contains "." (Str.lower s) = Str.contains "." s.
Proof. induction s as [|a s IH]; simpl; [done|]. by rewrite lower_char_dot, IH. Qed.

Lemma contains_lower_slash s : Str.contains "/" (Str.lower s) = Str.contains "/" s.
Proof. induction s as [|a s IH]; simpl; [done|]. by rewrite lower_char_slash, IH. Qed.

Lemma lower_is_ext e : is_ext e → is_ext (Str.lower e).
Proof.
  intros [->|(t & -> & Hdot & Hsep)]; [by left|].
  right. exists (Str.lower t). simpl.
  by rewrite contains_lower_dot, contains_lower_slash.
Qed.

Lemma lower_idempotent s : Str.lower (Str.lower s) = Str.lower s.
Proof.
  induction s as [|a s IH]; simpl; [done|]. rewrite IH. f_equal.
  by destruct a as [[] [] [] [] [] [] [] []].
Qed.

Lemma digit_not_dot c : is_digit c = true → Ascii.eqb c "." = false ∧ Ascii.eqb c "/" = false.
Proof. by destruct c as [[] [] [] [] [] [] [] []]. Qed.

Lemma numeric_no_dot s :
  numeric s → Str.contains "." s = false ∧ Str.contains "/" s = false.
Proof.
  unfold numeric. induction s as [|a s IH]; simpl; [done|].
  intros [Ha Hs]%Forall_cons. destruct (digit_not_dot a Ha) as [-> ->].
  by apply IH.
Qed.

Lemma string_app_nil_r s : s +:+ "" = s.
Proof.
  induction s as [|a s IH]; [done|].
  change (String a s +:+ "") with (String a (s +:+ "")). by rewrite IH.
Qed.

Lemma string_app_assoc s t u : (s +:+ t) +:+ u = s +:+ t +:+ u.
Proof.
  induction s as [|a s IH]; [done|].
  change (String a s +:+ t) with (String a (s +:+ t)).
  change (String a (s +:+ t) +:+ u) with (String a ((s +:+ t) +:+ u)).
  by rewrite IH.
Qed.

(** [splitext] gives back the extension put after a name that has neither
    dot nor slash. *)
Lemma splitext_app stem e :
  stem ≠ "" → Str.contains "." stem = false → Str.contains "/" stem = false →
  is_ext e → os_path.splitext (stem +:+ e) = (stem, e).
Proof.
  intros Hne Hdot Hsep [->|(t & -> & Htdot & Htsep)]; unfold os_path.splitext; cbv zeta.
  - rewrite string_app_nil_r.
    apply rfind_absent in Hdot, Hsep. by rewrite Hdot, Hsep.
  - rewrite !rfind_app. simpl Str.rfind.
    apply rfind_absent in Hdot, Hsep, Htdot, Htsep.
    rewrite Htdot, Htsep, Hsep. simpl.
    rewrite Z.add_0_r.
    destruct stem as [|a stem]; [done|].
    rewrite (proj2 (Z.ltb_lt _ _)) by (simpl String.length; lia).
    replace (Z.to_nat (Z.of_nat (String.length (String a stem)) - (-1 + 1)))
      with (S (String.length stem)) by (simpl String.length; lia).
    simpl os_path.has_non_dot.
    change (String a stem +:+ String "." t) with (String a (stem +:+ String "." t)).
    unfold Str.at_index. simpl Str.take.
    assert (Ha : a ≠ "."%char).
    { intros ->. apply rfind_absent in Hdot. simpl in Hdot. done. }
    rewrite bool_decide_eq_true_2 by congruence.
    rewrite Nat2Z.id.
    change (String a (stem +:+ String "." t)) with (String a stem +:+ String "." t).
    change (S (String.length stem)) with (String.length (String a stem)).
    by rewrite ?Nat2Z.id, take_app_length, drop_app_length.
Qed.

Lemma make_filename_prefix n rn ext :
  make_filename n rn ext = (position_prefix n +:+ rn) +:+ ext.
Proof.
  unfold make_filename, position_prefix.
  destruct n as [|[|n]]; simpl; by rewrite ?string_app_assoc.
Qed.

Lemma position_prefix_no_dot n :
  Str.contains "." (position_prefix n) = false
  ∧ Str.contains "/" (position_prefix n) = false.
Proof. by destruct n as [|[|n]]. Qed.

(** The extension of a written file is the extension it was named with. *)
Lemma splitext_make_filename n rn ext :
  String.length rn = 30%nat → numeric rn → is_ext ext →
  os_path.splitext (make_filename n rn ext) = (position_prefix n +:+ rn, ext).
Proof.
  intros Hlen Hnum Hext. rewrite make_filename_prefix.
  destruct (numeric_no_dot rn Hnum) as [Hd Hs].
  destruct (position_prefix_no_dot n) as [Hpd Hps].
  apply splitext_app; [| by rewrite contains_app, Hpd, Hd
                       | by rewrite contains_app, Hps, Hs | done].
  intros Heq. apply (f_equal String.length) in Heq.
  rewrite string_length_app, Hlen in Heq. simpl in Heq. lia.
Qed.

(** ** Deduplication and failures of the extraction loop *)

Section Extraction_claims.

Context {P : Platform}.

(** *** What a written file is *)

Lemma output_ext_is_ext image : is_ext (output_ext image).
Proof.
  unfold output_ext. destruct (is_jpeg2000 image).
  - right. by exists "png".
  - apply lower_is_ext, splitext_is_ext.
Qed.

Lemma output_ext_not_jpeg2000 image : output_ext image ∉ [".jp2"; ".jpx"].
Proof.
  unfold output_ext. destruct (is_jpeg2000 image) eqn:Hjp.
  - intros Hin. by repeat (apply elem_of_cons in Hin as [?|Hin]; [done|]);
      apply elem_of_nil in Hin.
  - unfold is_jpeg2000 in Hjp. by apply bool_decide_eq_false_1 in Hjp.
Qed.

Lemma written_shape out g (st : Locals) s f :
  s ∈ trace out g st → s_result s = Ok (Written f) →
  ∃ rn payload,
    f = make_filename (image_count (s_before s)) rn (output_ext (s_image s))
    ∧ String.length rn = 30%nat ∧ numeric rn
    ∧ output_data (s_image s) = Ok payload
    ∧ fs_write (os_path.join out f) payload (w_fs (world (s_before s)))
      = (Ok tt, w_fs (world (s_after s)))
    ∧ extracted_files (s_after s) = extracted_files (s_before s) ++ [f]
    ∧ image_count (s_after s) = S (image_count (s_before s)).
Proof.
  intros Hs Hres. apply trace_step in Hs. rewrite Hres in Hs.
  destruct (process_image_cases out (s_image s) (s_before s))
    as [[Hin Heq] | [(Hnin & _ & e & _ & Heq) | (Hnin & pl & rn & r' & fs' & res & Hout & Hlen & Hnum & Hw & Heq)]];
    rewrite Heq in Hs; [done..|].
  destruct res as [[]|e]; [|done]. injection Hs as <- <-.
  exists rn, pl. simpl. by rewrite Hw.
Qed.

(** A later image with the bytes of an earlier one is skipped as a
    duplicate, and its step changes nothing. *)
Lemma later_occurrence_skipped out g (st : Locals) (i j : nat) si sj :
  (i < j)%nat →
  trace out g st !! i = Some si → trace out g st !! j = Some sj →
  data (s_image si) = data (s_image sj) →
  s_result sj = Ok Duplicate ∧ s_after sj = s_before sj.
Proof.
  intros Hij Hi Hj Hdata.
  destruct (trace_earlier _ _ _ _ _ _ _ Hij Hi Hj) as [_ Hseen].
  rewrite Hdata in Hseen.
  pose proof (trace_step _ _ _ _ (list_elem_of_lookup_2 _ _ _ Hj)) as Hstep.
  rewrite (process_image_duplicate _ _ _ Hseen) in Hstep.
  by injection Hstep as <- <-.
Qed.

(** A step that writes a file starts with a hash not seen before. *)
Lemma written_fresh out g (st : Locals) s f :
  s ∈ trace out g st → s_result s = Ok (Written f) →
  py_hash (data (s_image s)) ∉ seen_images (s_before s).
Proof.
  intros Hs Hres Hin. apply trace_step in Hs.
  rewrite (process_image_duplicate _ _ _ Hin) in Hs. congruence.
Qed.

(** The names a call returns are those of the steps that wrote a file. *)
Lemma extract_images_from_pdf_written path out (w : World) reader :
  pdf_open path (w_fs w) = Ok reader →
  (extract_images_from_pdf path out w).1 =
  Ok (written (trace out (all_images (pages reader)) (initial_locals w))).
Proof.
  intros Hopen. rewrite extract_images_from_pdf_eq, Hopen.
  pose proof (for_each_written out (all_images (pages reader)) (initial_locals w)) as Hw.
  destruct (for_each _ _ _) as [[[]|e] st]; simpl in *; by rewrite Hw.
Qed.

(** C1. Deduplication is by the exact bytes of the payload. In the run of
    the loop over the images of a document (page order, then in-page
    order): the returned names are those of the steps that wrote a file;
    an image whose bytes occurred earlier is skipped as a duplicate and
    its step leaves the result list, the position counter and the world
    as they were; and two steps that wrote a file have images with
    different hashes. *)
Theorem dedup_first_occurrence_wins path out (w : World) reader :
  pdf_open path (w_fs w) = Ok reader →
  let imgs := all_images (pages reader) in
  let tr := trace out imgs (initial_locals w) in
  (extract_images_from_pdf path out w).1 = Ok (written tr)
  ∧ s_image <$> tr `prefix_of` gen_items imgs
  ∧ (∀ (i j : nat) si sj, (i < j)%nat → tr !! i = Some si → tr !! j = Some sj →
       data (s_image si) = data (s_image sj) →
       s_result sj = Ok Duplicate ∧ s_after sj = s_before sj)
  ∧ (∀ (i j : nat) si sj fi fj, (i < j)%nat →
       tr !! i = Some si → tr !! j = Some sj →
       s_result si = Ok (Written fi) → s_result sj = Ok (Written fj) →
       py_hash (data (s_image si)) ≠ py_hash (data (s_image sj))).
Proof.
  intros Hopen imgs tr. split; [|split; [|split]].
  - by apply extract_images_from_pdf_written.
  - apply trace_images.
  - intros i j si sj Hij Hi Hj Hdata.
    eapply later_occurrence_skipped; [exact Hij|exact Hi|exact Hj|exact Hdata].
  - intros i j si sj fi fj Hij Hi Hj Hri Hrj Heq.
    destruct (trace_earlier _ _ _ _ _ _ _ Hij Hi Hj) as [_ Hseen].
    rewrite Heq in Hseen.
    by eapply written_fresh; [eapply list_elem_of_lookup_2, Hj|exact Hrj|].
Qed.

(** C9. A JPEG2000-family image whose conversion fails has its hash in
    the set of seen hashes all the same: the step that ends in the failed
    conversion started with a hash not yet seen and ends with it
    recorded; every later image with the same bytes is skipped as a
    duplicate; and no step of the run whose image has these bytes writes
    a file. *)
Theorem failed_conversion_blocks_content path out (w : World) reader (i : nat) si :
  pdf_open path (w_fs w) = Ok reader →
  let tr := trace out (all_images (pages reader)) (initial_locals w) in
  tr !! i = Some si →
  s_result si = Ok ConversionFailed →
  let h := py_hash (data (s_image si)) in
  is_jpeg2000 (s_image si) = true
  ∧ (∃ e, convert_to_png (data (s_image si)) = Raise e)
  ∧ (h ∉ seen_images (s_before si))
  ∧ h ∈ seen_images (s_after si)
  ∧ (∀ (j : nat) sj, (i < j)%nat → tr !! j = Some sj →
       data (s_image sj) = data (s_image si) →
       s_result sj = Ok Duplicate ∧ s_after sj = s_before sj)
  ∧ (∀ (k : nat) sk f, tr !! k = Some sk →
       data (s_image sk) = data (s_image si) →
       s_result sk ≠ Ok (Written f)).
Proof.
  intros Hopen tr Hi Hres h.
  pose proof (trace_step _ _ _ _ (list_elem_of_lookup_2 _ _ _ Hi)) as Hstep.
  assert (Hfresh : h ∉ seen_images (s_before si)).
  { intros Hin. rewrite (process_image_duplicate _ _ _ Hin) in Hstep. congruence. }
  assert (Hlater : ∀ (j : nat) sj, (i < j)%nat → tr !! j = Some sj →
            data (s_image sj) = data (s_image si) →
            s_result sj = Ok Duplicate ∧ s_after sj = s_before sj).
  { intros j sj Hij Hj Hdata. by eapply later_occurrence_skipped. }
  destruct (process_image_cases out (s_image si) (s_before si))
    as [[Hin _] | [(_ & Hjp & e & Hconv & Heq) | (_ & pl & rn & r' & fs' & res & _ & _ & _ & _ & Heq)]].
  - done.
  - split; [done|]. split; [by eauto|]. split; [done|]. split.
    { by apply process_image_seen in Hstep as [_ ?]. }
    split; [done|].
    intros k sk f Hk Hdata Hw.
    destruct (Nat.lt_trichotomy k i) as [Hlt|[->|Hgt]].
    + destruct (trace_earlier _ _ _ _ _ _ _ Hlt Hk Hi) as [_ Hseen].
      rewrite Hdata in Hseen. done.
    + congruence.
    + destruct (Hlater k sk Hgt Hk Hdata) as [Hdup _]. congruence.
  - rewrite Heq in Hstep. destruct res as [[]|e]; congruence.
Qed.


(** C10. When, after the document was opened, an exception ends the loop
    (the enumeration of the pages or of the images raises, or the body
    does, which only happens when writing the file fails), the call still
    returns, not an error and not the empty list, but the names appended
    by the images before: whatever follows in the document is not
    processed, and the exception is logged. *)
Theorem partial_result_on_exception path out (w : World) reader l g (st1 : Locals) e :
  pdf_open path (w_fs w) = Ok reader →
  all_images (pages reader) = gen_prepend l g →
  for_each (gen_prepend l GDone) (process_image out) (initial_locals w) = (Ok tt, st1) →
  (g = GRaise e
   ∨ ∃ image rest st2, g = GYield image rest
                       ∧ process_image out image st1 = (Raise e, st2)) →
  ∃ w',
    extract_images_from_pdf path out w = (Ok (extracted_files st1), w')
    ∧ extracted_files st1 = written (trace out (gen_prepend l GDone) (initial_locals w))
    ∧ last (w_log w') = Some ("Failed to extract images: " +:+ exn_msg e).
Proof.
  intros Hopen Himgs Hl Hg.
  pose proof (for_each_written out (gen_prepend l GDone) (initial_locals w)) as Hw.
  rewrite Hl in Hw. simpl in Hw.
  rewrite extract_images_from_pdf_eq, Hopen, Himgs.
  rewrite (for_each_prepend_ok _ _ _ _ _ Hl).
  destruct Hg as [-> | (image & rest & st2 & -> & Hstep)]; simpl.
  - eexists. split; [done|]. split; [done|]. unfold log_append; simpl; by rewrite last_snoc.
  - unfold Monad.bind. rewrite Hstep.
    apply process_image_raises in Hstep as (Hfiles & _).
    eexists. rewrite Hfiles. split; [done|]. split; [done|]. unfold log_append; simpl; by rewrite last_snoc.
Qed.

(** *** Documents whose images all produce a file *)

Lemma for_each_all_written out imgs (st : Locals) :
  (∀ image, image ∈ imgs → py_hash (data image) ∉ seen_images st) →
  NoDup (py_hash ∘ data <$> imgs) →
  (∀ image, image ∈ imgs → ∃ payload, output_data image = Ok payload) →
  (∀ s, s ∈ trace out (gen_prepend imgs GDone) st → ∃ o, s_result s = Ok o) →
  ∃ st' new,
    for_each (gen_prepend imgs GDone) (process_image out) st = (Ok tt, st')
    ∧ extracted_files st' = extracted_files st ++ new
    ∧ length new = length imgs
    ∧ ∀ (i : nat) f, new !! i = Some f →
        ∃ image rn, imgs !! i = Some image
          ∧ f = make_filename (image_count st + i) rn (output_ext image)
          ∧ String.length rn = 30%nat ∧ numeric rn.
Proof.
  intros Hfresh Hnd Hout Hok. revert st Hfresh Hok.
  induction imgs as [|image imgs IH]; intros st Hfresh Hok.
  - exists st, []. simpl. by rewrite app_nil_r.
  - rewrite fmap_cons in Hnd. apply NoDup_cons in Hnd as [Hhd Hnd].
    simpl in Hok. simpl. unfold Monad.bind.
    destruct (process_image_cases out image st)
      as [[Hin _] | [(_ & Hjp & e & Hconv & _) | (_ & pl & rn & r' & fs' & res & Hpl & Hlen & Hnum & Hw & Heq)]].
    + exfalso. by eapply Hfresh; [left|].
    + destruct (Hout image ltac:(left)) as [pl Hpl].
      unfold output_data in Hpl. rewrite Hjp in Hpl. congruence.
    + cbv zeta in Hw. rewrite Heq in Hok. rewrite Heq.
      destruct res as [[]|e].
      2:{ destruct (Hok _ ltac:(left)) as [o Ho]. simpl in Ho. congruence. }
      edestruct IH as (st' & new & Hrun & Hfiles & Hlength & Hnames);
        [done| by intros; apply Hout; right | | | ].
      3:{ exists st', (make_filename (image_count st) rn (output_ext image) :: new).
          split; [exact Hrun|]. split.
          { rewrite Hfiles. simpl. by rewrite <- app_assoc. }
          split; [simpl; by rewrite Hlength|].
          intros [|i] f; simpl.
          - intros [= <-]. exists image, rn. by rewrite Nat.add_0_r.
          - intros Hf. destruct (Hnames i f Hf) as (image' & rn' & ? & -> & ? & ?).
            exists image', rn'. split; [done|]. split; [|done].
            f_equal. simpl. lia. }
      * intros image' Hin'. simpl.
        intros [Heq'%elem_of_singleton | Hseen]%elem_of_union.
        -- apply Hhd, list_elem_of_fmap. exists image'.
           split; [simpl; congruence|done].
        -- eapply Hfresh; [by right|done].
      * intros s Hs. apply Hok. by right.
Qed.

(** C2, as amended. For a document that opens and enumerates its N
    images without an exception, when the images have pairwise distinct
    hashes, every JPEG2000-family image converts, and every file of the
    run is written successfully (no step of the loop raises): the call
    returns exactly N names, in the order of the images; the name at
    position 0 starts with "user-img-", the one at position 1 with
    "sign-img-", the later ones have no prefix; and each name is that
    prefix, 30 decimal digits, and the extension of its image (".png" for
    the JPEG2000 family, the lower-cased declared extension otherwise). *)
Theorem distinct_hashes_give_all_files path out (w : World) reader imgs :
  pdf_open path (w_fs w) = Ok reader →
  all_images (pages reader) = gen_prepend imgs GDone →
  NoDup (py_hash ∘ data <$> imgs) →
  (∀ image, image ∈ imgs → ∃ payload, output_data image = Ok payload) →
  (∀ s, s ∈ trace out (all_images (pages reader)) (initial_locals w) →
        ∃ o, s_result s = Ok o) →
  ∃ files,
    (extract_images_from_pdf path out w).1 = Ok files
    ∧ length files = length imgs
    ∧ ∀ (i : nat) f, files !! i = Some f →
        ∃ image rn, imgs !! i = Some image
          ∧ f = position_prefix i +:+ rn +:+ output_ext image
          ∧ String.length rn = 30%nat ∧ numeric rn.
Proof.
  intros Hopen Himgs Hnd Hout Hok. rewrite Himgs in Hok.
  destruct (for_each_all_written out imgs (initial_locals w))
    as (st' & new & Hrun & Hfiles & Hlen & Hnames); [set_solver|done..|].
  exists new. rewrite extract_images_from_pdf_eq, Hopen, Himgs, Hrun.
  simpl in *. subst new. split; [done|]. split; [done|].
  intros i f Hf. destruct (Hnames i f Hf) as (image & rn & ? & -> & ? & ?).
  exists image, rn. split; [done|]. split; [|done].
  by rewrite make_filename_prefix, string_app_assoc.
Qed.

(** C3, as amended. A JPEG2000-family image (lower-cased declared
    extension ".jp2" or ".jpx") for which a file is written is opened as
    an image, converted to "RGB" exactly when its mode is "RGBA" or "P",
    saved as PNG, and these PNG bytes are written under a name with
    extension ".png"; and no name returned by an extraction has the
    extension ".jp2" or ".jpx". *)
Theorem jpeg2000_written_as_png path out (w : World) :
  (∀ reader s f,
     pdf_open path (w_fs w) = Ok reader →
     s ∈ trace out (all_images (pages reader)) (initial_locals w) →
     is_jpeg2000 (s_image s) = true →
     s_result s = Ok (Written f) →
     ∃ img png,
       Image_open (data (s_image s)) = Ok img
       ∧ (if bool_decide (Image_mode img ∈ ["RGBA"; "P"])
          then ∃ rgb, Image_convert "RGB" img = Ok rgb ∧ Image_save "PNG" rgb = Ok png
          else Image_save "PNG" img = Ok png)
       ∧ (os_path.splitext f).2 = ".png"
       ∧ fs_write (os_path.join out f) png (w_fs (world (s_before s)))
         = (Ok tt, w_fs (world (s_after s))))
  ∧ (∀ files f,
       (extract_images_from_pdf path out w).1 = Ok files → f ∈ files →
       (os_path.splitext f).2 ∉ [".jp2"; ".jpx"]).
Proof.
  split.
  - intros reader s f Hopen Hs Hjp Hres.
    destruct (written_shape _ _ _ _ _ Hs Hres)
      as (rn & png & Hf & Hlen & Hnum & Hout & Hw & _).
    unfold output_data in Hout. rewrite Hjp in Hout.
    unfold convert_to_png in Hout.
    destruct (Image_open (data (s_image s))) as [img|e] eqn:Himg; [|done].
    exists img, png. split; [done|]. split.
    { destruct (bool_decide (Image_mode img ∈ ["RGBA"; "P"])).
      - destruct (Image_convert "RGB" img) as [rgb|e]; [by eauto|done].
      - done. }
    split; [|done].
    rewrite Hf, splitext_make_filename by (done || apply output_ext_is_ext).
    simpl. unfold output_ext. by rewrite Hjp.
  - intros files f Hfiles Hin.
    rewrite extract_images_from_pdf_eq in Hfiles.
    destruct (pdf_open path (w_fs w)) as [reader|e] eqn:Hopen.
    2:{ injection Hfiles as <-. by apply elem_of_nil in Hin. }
    pose proof (for_each_written out (all_images (pages reader)) (initial_locals w)) as Hw.
    assert (Hfiles' : files = written (trace out (all_images (pages reader)) (initial_locals w))).
    { destruct (for_each _ _ _) as [[[]|e] st]; simpl in *; congruence. }
    subst files. unfold written in Hin.
    apply list_elem_of_omap in Hin as (s & Hs & Hsome).
    destruct (s_result s) as [[| |f']|e] eqn:Hres; try done.
    injection Hsome as ->.
    destruct (written_shape _ _ _ _ _ Hs Hres) as (rn & png & Hf & Hlen & Hnum & _).
    rewrite Hf, splitext_make_filename by (done || apply output_ext_is_ext).
    apply output_ext_not_jpeg2000.
Qed.

End Extraction_claims.

(** ** Hash collisions *)

Section Collisions.

Context {P : Platform}.

(** A hash with 2^64 values cannot tell all payloads apart: among the
    payloads of 0, 1, ..., 2^64 zero bytes, two have the same hash. *)
Lemma py_hash_collision :
  ∃ b1 b2 : bytes, b1 ≠ b2 ∧ py_hash b1 = py_hash b2.
Proof.
  pose (f := λ i : nat, Z.to_nat (py_hash (replicate i Byte.x00) + 2 ^ 63)).
  destruct (nat_pigeonhole f (S (Z.to_nat (2 ^ 64))) (Z.to_nat (2 ^ 64)))
    as (i & j & Hij & Hf).
  - apply Nat.lt_succ_diag_r.
  - intros i _. unfold f.
    pose proof (py_hash_range (replicate i Byte.x00)) as Hr.
    apply Z2Nat.inj_lt; lia.
  - exists (replicate i Byte.x00), (replicate j Byte.x00). split.
    + intros Heq. apply (f_equal length) in Heq. rewrite !length_replicate in Heq. lia.
    + unfold f in Hf.
      pose proof (py_hash_range (replicate i Byte.x00)).
      pose proof (py_hash_range (replicate j Byte.x00)).
      apply Z2Nat.inj in Hf; lia.
Qed.

End Collisions.

Section Collisions_lose.

Context {P : Platform}.

(** X13. Whatever the platform, some document with two images of different
    bytes, neither of the JPEG2000 family, yields at most one file: the
    second image is taken for a duplicate of the first. *)
Lemma colliding_payloads_lose_an_image :
  ∃ a b : ImageFile,
    data a ≠ data b ∧ is_jpeg2000 a = false ∧ is_jpeg2000 b = false
    ∧ ∀ path out (w : World) reader,
        pdf_open path (w_fs w) = Ok reader →
        all_images (pages reader) = gen_prepend [a; b] GDone →
        ∃ files, (extract_images_from_pdf path out w).1 = Ok files
                 ∧ (length files ≤ 1)%nat.
Proof.
  destruct py_hash_collision as (b1 & b2 & Hne & Hhash).
  exists (mkImageFile b1 "Im0.png"), (mkImageFile b2 "Im1.png").
  split; [done|]. split; [reflexivity|]. split; [reflexivity|].
  intros path out w reader Hopen Himgs.
  rewrite (extract_images_from_pdf_written _ _ _ _ Hopen), Himgs.
  eexists. split; [reflexivity|]. simpl.
  destruct (process_image out _ (initial_locals w)) as [r st'] eqn:Hstep.
  destruct r as [o|e].
  - apply process_image_seen in Hstep as [_ Hseen]. simpl in Hseen. rewrite Hhash in Hseen.
    rewrite (process_image_duplicate out (mkImageFile b2 "Im1.png") st' Hseen).
    unfold written. simpl. destruct o; simpl; lia.
  - unfold written. simpl. lia.
Qed.

End Collisions_lose.

(** ** The upload endpoint *)

Section Endpoint.

Context {P : Platform}.

Lemma make_response_tagged data status :
  (make_response data status).1 !! "TG_Channel" = Some TG_Channel
  ∧ (make_response data status).2 = status.
Proof. unfold make_response. simpl. by rewrite lookup_insert_eq. Qed.

Lemma images_response_nil (w : World) :
  images_response [] w =
  (Ok (make_response {[ "message" := JString "No images found in the PDF" ]} 200), w).
Proof. done. Qed.

(** The answer for a list of files is always a tagged 200. *)
Lemma images_response_ok l (w : World) :
  ∃ data, images_response l w = (Ok (make_response data 200), w).
Proof.
  destruct l as [|f0 [|f1 l]]; unfold images_response;
    [rewrite bool_decide_eq_false_2 by (by intros []) | rewrite bool_decide_eq_true_2 by done ..].
  - by eexists.
  - rewrite (bool_decide_eq_true_2 (1 ≤ _)%nat) by (simpl; lia).
    rewrite (bool_decide_eq_false_2 (2 ≤ _)%nat) by (simpl; lia).
    unfold Monad.bind, Monad.lift, Monad.ret, index. simpl. by eexists.
  - rewrite (bool_decide_eq_true_2 (1 ≤ _)%nat) by (simpl; lia).
    rewrite (bool_decide_eq_true_2 (2 ≤ _)%nat) by (simpl; lia).
    unfold Monad.bind, Monad.lift, Monad.ret, index. simpl. by eexists.
Qed.

Lemma extract_images_from_pdf_total path out (w : World) :
  ∃ files w', extract_images_from_pdf path out w = (Ok files, w').
Proof. unfold extract_images_from_pdf. by eexists _, _. Qed.

(** [allowed_file] does not raise: its index is guarded. *)
Lemma allowed_file_total s : ∃ b, allowed_file s = Ok b.
Proof.
  unfold allowed_file. destruct (Str.contains "." s) eqn:Hc; [|by eexists].
  unfold Str.rsplit1.
  destruct (0 <=? Str.rfind "." s) eqn:Hr; [by eexists|].
  apply Z.leb_gt in Hr. pose proof (rfind_ge "." s).
  assert (Hn : Str.rfind "." s = -1) by lia.
  apply rfind_absent in Hn. congruence.
Qed.

Lemma drop_succ (n : nat) s : Str.drop (S n) s = Str.drop 1 (Str.drop n s).
Proof.
  revert s. induction n as [|n IH]; intros [|a s]; try done.
  change (Str.drop (S (S n)) (String a s)) with (Str.drop (S n) s).
  change (Str.drop (S n) (String a s)) with (Str.drop n s). apply IH.
Qed.

(** [allowed_file] accepts exactly the names with extension pdf. *)
Lemma allowed_file_spec s : allowed_file s = Ok true ↔ has_pdf_extension s.
Proof.
  unfold allowed_file, has_pdf_extension, Str.rsplit1, ALLOWED_EXTENSIONS. split.
  - destruct (Str.contains "." s) eqn:Hc; [|done].
    destruct (0 <=? Str.rfind "." s) eqn:Hr.
    2:{ apply Z.leb_gt in Hr. pose proof (rfind_ge "." s).
        assert (Hn : Str.rfind "." s = -1) by lia.
        apply rfind_absent in Hn. congruence. }
    apply Z.leb_le in Hr. unfold index. simpl.
    intros [= Hpdf]. apply bool_decide_eq_true_1, elem_of_singleton in Hpdf.
    destruct (drop_rfind "." s Hr) as (t & Ht & Hdot).
    exists (Str.take (Z.to_nat (Str.rfind "." s)) s), t.
    replace (Z.to_nat (Str.rfind "." s) + 1)%nat with (S (Z.to_nat (Str.rfind "." s)))
      in Hpdf by lia.
    rewrite drop_succ, Ht in Hpdf. simpl in Hpdf.
    split; [|done].
    change ("." +:+ t) with (String "." t). rewrite <- Ht. by rewrite take_drop.
  - intros (stem & ext & -> & Hdot & Hpdf).
    rewrite contains_app. change ("." +:+ ext) with (String "." ext).
    simpl Str.contains. rewrite orb_true_r.
    rewrite rfind_app. simpl Str.rfind.
    apply rfind_absent in Hdot. rewrite Hdot. simpl.
    rewrite (proj2 (Z.leb_le 0 _)) by lia. unfold index. simpl.
    replace (Z.to_nat (Z.of_nat (String.length stem) + 0) + 1)%nat
      with (S (String.length stem)) by lia.
    rewrite drop_succ, drop_app_length. simpl. rewrite Hpdf.
    by rewrite bool_decide_eq_true_2 by set_solver.
Qed.

Lemma allowed_file_refuses s : allowed_file s = Ok false ↔ ¬ has_pdf_extension s.
Proof.
  rewrite <- allowed_file_spec. destruct (allowed_file_total s) as [[] ->]; split; try done.
Qed.

(** What [process_upload] does once the name is drawn, by the result of
    saving the upload. *)
Lemma process_upload_eq file (w w1 : World) rn :
  generate_random_number 30 w = (Ok rn, w1) →
  let pdf_path := os_path.join UPLOAD_FOLDER (rn +:+ ".pdf") in
  process_upload file w =
  match open_write pdf_path (stream file) w1 with
  | (Raise e, w2) => (Raise e, w2)
  | (Ok _, w2) =>
      match extract_images_from_pdf pdf_path EXTRACTED_FOLDER w2 with
      | (Ok extracted_images, w3) =>
          images_response extracted_images
            (Monad.try_except (os_remove pdf_path)
               (λ e, logging_error ("Failed to delete PDF: " +:+ exn_msg e)) w3).2
      | (Raise e, w3) => (Raise e, w3)
      end
  end.
Proof.
  intros Hrn pdf_path. unfold process_upload, Monad.bind. rewrite Hrn.
  fold pdf_path. destruct (open_write pdf_path (stream file) w1) as [[[]|e] w2]; [|done].
  destruct (extract_images_from_pdf_total pdf_path EXTRACTED_FOLDER w2) as (l & w3 & ->).
  unfold Monad.try_except, logging_error, Monad.modify.
  by destruct (os_remove pdf_path w3) as [[[]|e] w4].
Qed.

(** A saved upload is answered by a tagged 200. *)
Lemma process_upload_saved file (w w1 w2 : World) rn :
  generate_random_number 30 w = (Ok rn, w1) →
  open_write (os_path.join UPLOAD_FOLDER (rn +:+ ".pdf")) (stream file) w1 = (Ok tt, w2) →
  ∃ data w', process_upload file w = (Ok (make_response data 200), w').
Proof.
  intros Hrn Hsave. rewrite (process_upload_eq _ _ _ _ Hrn). cbv zeta. rewrite Hsave.
  destruct (extract_images_from_pdf_total (os_path.join UPLOAD_FOLDER (rn +:+ ".pdf"))
              EXTRACTED_FOLDER w2) as (l & w3 & ->).
  edestruct images_response_ok as [data ->]. by eexists _, _.
Qed.

(** Every normal return of [process_upload] comes from [make_response]
    with status 200. *)
Lemma process_upload_ok file (w w' : World) resp :
  process_upload file w = (Ok resp, w') →
  ∃ data, resp = make_response data 200.
Proof.
  destruct (generate_random_number_spec 30 w) as (rn & r & Hrn & _).
  rewrite (process_upload_eq _ _ _ _ Hrn). cbv zeta.
  destruct (open_write _ _ _) as [[[]|e] w2]; [|done].
  destruct (extract_images_from_pdf_total (os_path.join UPLOAD_FOLDER (rn +:+ ".pdf"))
              EXTRACTED_FOLDER w2) as (l & w3 & ->).
  edestruct images_response_ok as [data ->]. intros [= <- <-]. by eexists.
Qed.

(** Every normal return of [upload_file] comes from [make_response]. *)
Lemma upload_file_ok files (w w' : World) resp :
  upload_file files w = (Ok resp, w') →
  ∃ data status, resp = make_response data status.
Proof.
  unfold upload_file. destruct (files !! "file") as [file|]; [|intros [= <- <-]; by eexists _, _].
  destruct (bool_decide (filename file = "")); [intros [= <- <-]; by eexists _, _|].
  destruct (allowed_file_total (filename file)) as [b Hb].
  unfold Monad.bind, Monad.lift, Monad.ret. rewrite Hb.
  destruct b; simpl; [|intros [= <- <-]; by eexists _, _].
  destruct (MAX_FILE_SIZE <? _); [intros [= <- <-]; by eexists _, _|].
  intros (data & ->)%process_upload_ok. by eexists _, _.
Qed.

(** A file that passed the first three checks meets the size gate. *)
Lemma upload_file_checked files file (w : World) :
  files !! "file" = Some file →
  filename file ≠ "" →
  has_pdf_extension (filename file) →
  upload_file files w =
  if MAX_FILE_SIZE <? Z.of_nat (length (stream file))
  then (Ok (make_response {[ "error" := JString "File size exceeds 2 MB limit" ]} 400), w)
  else process_upload file w.
Proof.
  intros Hfile Hname Hallowed%allowed_file_spec.
  unfold upload_file. rewrite Hfile, bool_decide_eq_false_2 by done.
  unfold Monad.bind at 1. unfold Monad.lift. rewrite Hallowed. simpl.
  by destruct (MAX_FILE_SIZE <? _).
Qed.

(** C5. A document that fails to open gives the empty list, without an
    exception, as does a document that opens and has no image; and for an
    upload that passed the checks and was saved, the endpoint answers
    both with status 200 and the message "No images found in the PDF",
    the same response. *)
Theorem parse_failure_like_no_images path out (w : World) :
  (∀ e, pdf_open path (w_fs w) = Raise e →
        (extract_images_from_pdf path out w).1 = Ok [])
  ∧ (∀ reader, pdf_open path (w_fs w) = Ok reader →
        all_images (pages reader) = GDone →
        extract_images_from_pdf path out w = (Ok [], w))
  ∧ (∀ files file rn (w1 w2 : World),
        files !! "file" = Some file →
        filename file ≠ "" →
        has_pdf_extension (filename file) →
        Z.of_nat (length (stream file)) ≤ MAX_FILE_SIZE →
        generate_random_number 30 w = (Ok rn, w1) →
        let pdf_path := os_path.join UPLOAD_FOLDER (rn +:+ ".pdf") in
        open_write pdf_path (stream file) w1 = (Ok tt, w2) →
        ((∃ e, pdf_open pdf_path (w_fs w2) = Raise e)
         ∨ (∃ reader, pdf_open pdf_path (w_fs w2) = Ok reader
                      ∧ all_images (pages reader) = GDone)) →
        ∃ w',
          upload_file files w =
          (Ok (make_response {[ "message" := JString "No images found in the PDF" ]} 200), w')).
Proof.
  split; [|split].
  - intros e He. by rewrite extract_images_from_pdf_eq, He.
  - intros reader Hopen Himgs. by rewrite extract_images_from_pdf_eq, Hopen, Himgs.
  - intros files file rn w1 w2 Hfile Hname Hallowed Hsize Hrn pdf_path Hsave Hdoc.
    rewrite (upload_file_checked _ _ _ Hfile Hname Hallowed).
    rewrite (proj2 (Z.ltb_ge _ _)) by done.
    rewrite (process_upload_eq _ _ _ _ Hrn). fold pdf_path. rewrite Hsave.
    assert (Hnone : ∃ w3, extract_images_from_pdf pdf_path EXTRACTED_FOLDER w2 = (Ok [], w3)).
    { rewrite extract_images_from_pdf_eq.
      destruct Hdoc as [[e ->] | (reader & -> & ->)]; by eexists. }
    destruct Hnone as [w3 ->]. rewrite images_response_nil. by eexists.
Qed.

(** C6. The size gate of the upload endpoint, for a file that passed the
    three earlier checks: the limit is [2 * 1024 * 1024] bytes; a larger
    file is answered 400 "File size exceeds 2 MB limit" and nothing else
    happens; a file of exactly the limit is not rejected: it is saved and
    extracted ([process_upload]), and what that returns has status 200. *)
Theorem size_gate_boundary files file (w : World) :
  files !! "file" = Some file →
  filename file ≠ "" →
  has_pdf_extension (filename file) →
  let size := Z.of_nat (length (stream file)) in
  MAX_FILE_SIZE = 2097152
  ∧ (size > MAX_FILE_SIZE →
       upload_file files w =
       (Ok (make_response {[ "error" := JString "File size exceeds 2 MB limit" ]} 400), w))
  ∧ (size = 2 * 1024 * 1024 →
       upload_file files w = process_upload file w
       ∧ ∀ resp w', process_upload file w = (Ok resp, w') → resp.2 = 200).
Proof.
  intros Hfile Hname Hallowed size. split; [done|].
  pose proof (upload_file_checked _ _ w Hfile Hname Hallowed) as Hup. fold size in Hup.
  split.
  - intros Hbig. rewrite Hup, (proj2 (Z.ltb_lt _ _)) by lia. done.
  - intros Hexact. rewrite Hup, (proj2 (Z.ltb_ge _ _)) by (unfold MAX_FILE_SIZE; lia).
    split; [done|]. intros resp w' (data & ->)%process_upload_ok. done.
Qed.

(** C7, as amended. The upload endpoint checks in this order: no "file"
    part, 400 "No file part"; an empty filename, 400 "No selected file";
    a filename whose extension is not pdf, 400 "Invalid file type"; more than
    [MAX_FILE_SIZE] bytes, 400 "File size exceeds 2 MB limit"; each
    whatever the later checks would say. A request that passes the four
    is answered with status 200 when saving the upload succeeds, whatever
    the extraction finds; when saving raises, the exception leaves the
    view. *)
Theorem upload_checks_in_order files (w : World) :
  (files !! "file" = None →
     upload_file files w =
     (Ok (make_response {[ "error" := JString "No file part" ]} 400), w))
  ∧ (∀ file, files !! "file" = Some file → filename file = "" →
       upload_file files w =
       (Ok (make_response {[ "error" := JString "No selected file" ]} 400), w))
  ∧ (∀ file, files !! "file" = Some file → filename file ≠ "" →
       ¬ has_pdf_extension (filename file) →
       upload_file files w =
       (Ok (make_response {[ "error" := JString "Invalid file type" ]} 400), w))
  ∧ (∀ file, files !! "file" = Some file → filename file ≠ "" →
       has_pdf_extension (filename file) →
       MAX_FILE_SIZE < Z.of_nat (length (stream file)) →
       upload_file files w =
       (Ok (make_response {[ "error" := JString "File size exceeds 2 MB limit" ]} 400), w))
  ∧ (∀ file rn (w1 : World), files !! "file" = Some file → filename file ≠ "" →
       has_pdf_extension (filename file) →
       Z.of_nat (length (stream file)) ≤ MAX_FILE_SIZE →
       generate_random_number 30 w = (Ok rn, w1) →
       match open_write (os_path.join UPLOAD_FOLDER (rn +:+ ".pdf")) (stream file) w1 with
       | (Ok _, _) => ∃ data w', upload_file files w = (Ok (make_response data 200), w')
       | (Raise e, w2) => upload_file files w = (Raise e, w2)
       end).
Proof.
  split; [|split; [|split; [|split]]].
  - intros Hfile. unfold upload_file. by rewrite Hfile.
  - intros file Hfile Hname. unfold upload_file.
    by rewrite Hfile, bool_decide_eq_true_2.
  - intros file Hfile Hname Hallowed%allowed_file_refuses. unfold upload_file.
    rewrite Hfile, bool_decide_eq_false_2 by done.
    unfold Monad.bind, Monad.lift. by rewrite Hallowed.
  - intros file Hfile Hname Hallowed Hsize.
    rewrite (upload_file_checked _ _ _ Hfile Hname Hallowed).
    by rewrite (proj2 (Z.ltb_lt _ _)).
  - intros file rn w1 Hfile Hname Hallowed Hsize Hrn.
    pose proof (upload_file_checked _ _ w Hfile Hname Hallowed) as Hup.
    rewrite (proj2 (Z.ltb_ge _ _)) in Hup by done.
    rewrite Hup.
    destruct (open_write _ _ _) as [[[]|e] w2] eqn:Hsave.
    + by eapply process_upload_saved.
    + rewrite (process_upload_eq _ _ _ _ Hrn). cbv zeta. by rewrite Hsave.
Qed.

(** C8. Every JSON response of the application, on whatever route and
    with whatever status, has the field "TG_Channel" with the one constant
    value. *)
Theorem json_responses_tagged (r : request) (w : World) body status :
  (serve r w).1 = Json body status →
  body !! "TG_Channel" = Some (JString "@UNKNOWN_X_1337_BOT").
Proof.
  unfold serve. destruct r as [|files|f|].
  - simpl. intros [= <- _]. by rewrite lookup_insert_eq.
  - unfold Monad.bind.
    destruct (upload_file files w) as [[resp|e] w'] eqn:Hup; [|done].
    apply upload_file_ok in Hup as (data & st & ->). simpl.
    intros [= <- _]. by rewrite lookup_insert_eq.
  - unfold download_file, Monad.bind, Monad.gets.
    by destruct (fs_send _ _ _).
  - unfold upload_page, Monad.bind, Monad.lift.
    by destruct (render_template _).
Qed.

End Endpoint.

(** ** Further properties of the extraction loop *)

Section Extraction_more.

Context {P : Platform}.

(** The loop keeps the position counter equal to the number of names in
    the result list, and the result list named by position. *)
Lemma process_image_positional out image (st st' : Locals) r :
  process_image out image st = (r, st') →
  image_count st = length (extracted_files st) → positional (extracted_files st) →
  image_count st' = length (extracted_files st') ∧ positional (extracted_files st').
Proof.
  intros Hstep Hcount Hpos.
  destruct (process_image_cases out image st)
    as [[_ Heq] | [(_ & _ & e & _ & Heq) | (_ & pl & rn & r' & fs' & res & _ & Hlen & Hnum & _ & Heq)]];
    rewrite Heq in Hstep.
  - by injection Hstep as <- <-.
  - by injection Hstep as <- <-.
  - destruct res as [[]|e]; injection Hstep as <- <-; simpl; [|done].
    split; [rewrite length_app; simpl; lia|].
    intros i f Hf. apply lookup_app_Some in Hf as [Hf|[Hge Hf]]; [by apply Hpos|].
    apply list_lookup_singleton_Some in Hf as [Hi <-].
    assert (i = image_count st) as -> by lia.
    exists rn, (output_ext image).
    split; [by rewrite make_filename_prefix, string_app_assoc|].
    split; [done|]. split; [done|].
    split; [apply output_ext_is_ext|apply output_ext_not_jpeg2000].
Qed.

Lemma for_each_positional out g (st : Locals) :
  image_count st = length (extracted_files st) → positional (extracted_files st) →
  let st' := (for_each g (process_image out) st).2 in
  image_count st' = length (extracted_files st') ∧ positional (extracted_files st').
Proof.
  revert st. induction g as [|image rest IH|e]; intros st Hcount Hpos; simpl; [done| |done].
  unfold Monad.bind. destruct (process_image out image st) as [r st1] eqn:Hstep.
  destruct (process_image_positional _ _ _ _ _ Hstep Hcount Hpos) as [Hcount1 Hpos1].
  destruct r as [o|e]; [by apply IH|done].
Qed.

Lemma extract_images_from_pdf_positional path out (w w' : World) files :
  extract_images_from_pdf path out w = (Ok files, w') → positional files.
Proof.
  rewrite extract_images_from_pdf_eq.
  destruct (pdf_open path (w_fs w)) as [reader|e].
  - pose proof (for_each_positional out (all_images (pages reader)) (initial_locals w)
                  eq_refl) as Hinv.
    destruct (for_each _ _ _) as [[[]|e] st]; intros [= <- <-];
      apply Hinv; by intros i f Hf.
  - intros [= <- <-]. by intros i f Hf.
Qed.

(** X1. Whatever the document and whatever fails on the way, the names a
    call returns are named by position: the first starts with "user-img-",
    the second with "sign-img-", the later ones with a digit; each is that
    prefix, 30 decimal digits and an extension, never ".jp2" or ".jpx". *)
Theorem returned_names_positional path out (w : World) :
  ∃ files w', extract_images_from_pdf path out w = (Ok files, w')
              ∧ positional files.
Proof.
  destruct (extract_images_from_pdf_total path out w) as (files & w' & Heq).
  exists files, w'. split; [done|]. by eapply extract_images_from_pdf_positional.
Qed.

(** The seen hashes are those at the start and those of images reached;
    every name appended comes with a hash that was not seen. *)
Lemma process_image_fingerprint out image (st st' : Locals) r :
  process_image out image st = (r, st') →
  seen_images st' ⊆ {[ py_hash (data image) ]} ∪ seen_images st
  ∧ (length (extracted_files st') + size (seen_images st)
     ≤ length (extracted_files st) + size (seen_images st'))%nat.
Proof.
  intros Hstep.
  destruct (process_image_cases out image st)
    as [[_ Heq] | [(Hnin & _ & e & _ & Heq) | (Hnin & pl & rn & r' & fs' & res & _ & _ & _ & _ & Heq)]];
    rewrite Heq in Hstep.
  - injection Hstep as <- <-. split; [set_solver|lia].
  - injection Hstep as <- <-. simpl. split; [done|].
    rewrite size_union by set_solver. lia.
  - destruct res as [[]|e]; injection Hstep as <- <-; simpl; (split; [done|]);
      rewrite size_union, size_singleton by set_solver; rewrite ?length_app; simpl; lia.
Qed.

Lemma for_each_fingerprint out g (st : Locals) :
  let st' := (for_each g (process_image out) st).2 in
  seen_images st' ⊆ fingerprints (gen_items g) ∪ seen_images st
  ∧ (length (extracted_files st') + size (seen_images st)
     ≤ length (extracted_files st) + size (seen_images st'))%nat.
Proof.
  revert st. induction g as [|image rest IH|e]; intros st; simpl;
    [split; [set_solver|lia]| |split; [set_solver|lia]].
  unfold Monad.bind. destruct (process_image out image st) as [r st1] eqn:Hstep.
  apply process_image_fingerprint in Hstep as [Hsub Hlen].
  unfold fingerprints. rewrite fmap_cons, list_to_set_cons.
  destruct r as [o|e]; simpl.
  - destruct (IH st1) as [Hsub' Hlen']. unfold fingerprints in Hsub'.
    split; [|lia]. intros x [Hx|Hx%Hsub]%Hsub'%elem_of_union.
    + apply elem_of_union_l, elem_of_union_r, Hx.
    + apply elem_of_union in Hx as [Hx|Hx].
      * apply elem_of_union_l, elem_of_union_l, Hx.
      * apply elem_of_union_r, Hx.
  - split; [|lia]. intros x [Hx|Hx]%Hsub%elem_of_union.
    + apply elem_of_union_l, elem_of_union_l, Hx.
    + apply elem_of_union_r, Hx.
Qed.

Lemma size_list_to_set_le (l : list Z) : (size (list_to_set l : gset Z) ≤ length l)%nat.
Proof.
  induction l as [|x l IH]; [by rewrite list_to_set_nil, size_empty|].
  rewrite list_to_set_cons, size_union_alt, size_singleton. simpl length.
  assert (size (list_to_set l ∖ {[x]} : gset Z) ≤ size (list_to_set l : gset Z))%nat
    by (apply subseteq_size, subseteq_difference_l; done).
  lia.
Qed.

(** X2. A call returns at most one name per distinct hash among the
    images of the document, hence at most one per image. *)
Theorem at_most_one_file_per_fingerprint path out (w : World) reader :
  pdf_open path (w_fs w) = Ok reader →
  let imgs := gen_items (all_images (pages reader)) in
  ∃ files w', extract_images_from_pdf path out w = (Ok files, w')
              ∧ (length files ≤ size (fingerprints imgs))%nat
              ∧ (size (fingerprints imgs) ≤ length imgs)%nat.
Proof.
  intros Hopen imgs. rewrite extract_images_from_pdf_eq, Hopen.
  destruct (for_each_fingerprint out (all_images (pages reader)) (initial_locals w))
    as [Hsub Hlen]. fold imgs in Hsub.
  assert (Hsize : (length (extracted_files
                     (for_each (all_images (pages reader)) (process_image out)
                        (initial_locals w)).2) ≤ size (fingerprints imgs))%nat).
  { change (seen_images (initial_locals w)) with (∅ : gset Z) in Hsub, Hlen.
    change (extracted_files (initial_locals w)) with (@nil string) in Hlen.
    rewrite size_empty in Hlen. rewrite (right_id_L ∅ (∪)) in Hsub.
    apply subseteq_size in Hsub. simpl in Hlen. lia. }
  assert (Hle : (size (fingerprints imgs) ≤ length imgs)%nat).
  { unfold fingerprints. etrans; [apply size_list_to_set_le|]. by rewrite length_fmap. }
  destruct (for_each _ _ _) as [[[]|e] st]; by eexists _, _.
Qed.

(** A second copy of an image, after the first, changes nothing: the run
    is the run of the sequence without it. *)
Lemma for_each_skip_copy out l image g (st : Locals) :
  py_hash (data image) ∈ seen_images st
  ∨ (∃ image', image' ∈ l ∧ py_hash (data image') = py_hash (data image)) →
  for_each (gen_prepend l (GYield image g)) (process_image out) st
  = for_each (gen_prepend l g) (process_image out) st.
Proof.
  revert st. induction l as [|a l IH]; intros st Hseen; simpl.
  - destruct Hseen as [Hseen|(image' & Hin & _)]; [|by apply elem_of_nil in Hin].
    unfold Monad.bind. by rewrite (process_image_duplicate _ _ _ Hseen).
  - unfold Monad.bind. destruct (process_image out a st) as [r st1] eqn:Hstep.
    destruct r as [o|e]; [|done]. apply IH.
    apply process_image_seen in Hstep as [Hsub Ha].
    destruct Hseen as [Hseen|(image' & [->|Hin]%elem_of_cons & Heq)].
    + left. by apply Hsub.
    + left. by rewrite <- Heq.
    + right. by exists image'.
Qed.

(** X3. Two documents that differ by one more copy of an image, placed
    anywhere after an image with the same bytes, give the same names and
    leave the same world. *)
Theorem later_copy_changes_nothing path path' out (w : World) reader reader' l image g :
  pdf_open path (w_fs w) = Ok reader →
  pdf_open path' (w_fs w) = Ok reader' →
  all_images (pages reader) = gen_prepend l (GYield image g) →
  all_images (pages reader') = gen_prepend l g →
  (∃ image', image' ∈ l ∧ data image' = data image) →
  extract_images_from_pdf path out w = extract_images_from_pdf path' out w.
Proof.
  intros Hopen Hopen' Himgs Himgs' (image' & Hin & Hdata).
  rewrite !extract_images_from_pdf_eq, Hopen, Hopen', Himgs, Himgs'.
  rewrite for_each_skip_copy; [done|].
  right. exists image'. by rewrite Hdata.
Qed.

Lemma no_slash_startswith f : Str.contains "/" f = false → Str.startswith "/" f = false.
Proof.
  intros Hc. unfold Str.startswith. apply bool_decide_eq_false_2.
  destruct f as [|a [|b f]]; simpl; [done| |].
  - intros [= ->]. done.
  - intros [= ->]. done.
Qed.

(** X4. In every run of the loop, every file is written directly in the
    output directory: the name has no slash, whatever the declared name of the image in the document,
    so the path written is the directory, a separator if the directory
    does not end in one, and the name. *)
Theorem written_inside_output_directory out g (st : Locals) s f :
  s ∈ trace out g st →
  s_result s = Ok (Written f) →
  Str.contains "/" f = false
  ∧ f ≠ ""
  ∧ os_path.join out f
    = (if bool_decide (out = "") || Str.endswith "/" out then out +:+ f
       else out +:+ "/" +:+ f)
  ∧ ∃ payload, fs_write (os_path.join out f) payload (w_fs (world (s_before s)))
               = (Ok tt, w_fs (world (s_after s))).
Proof.
  intros Hs Hres.
  destruct (written_shape _ _ _ _ _ Hs Hres) as (rn & pl & Hf & Hlen & Hnum & _ & Hw & _).
  assert (Hslash : Str.contains "/" f = false).
  { rewrite Hf, make_filename_prefix, !contains_app.
    destruct (position_prefix_no_dot (image_count (s_before s))) as [_ ->].
    destruct (numeric_no_dot rn Hnum) as [_ ->].
    destruct (output_ext_is_ext (s_image s)) as [->|(t & -> & _ & Ht)]; [done|].
    simpl. by rewrite Ht. }
  split; [done|]. split.
  { intros Hnil. rewrite Hf, make_filename_prefix in Hnil.
    apply (f_equal String.length) in Hnil.
    rewrite !string_length_app, Hlen in Hnil. simpl in Hnil. lia. }
  split; [|by eauto].
  unfold os_path.join. by rewrite no_slash_startswith.
Qed.

(** X5. In every run of the loop, an image that is not of the JPEG2000
    family is written byte for byte, under a name whose extension is the lower-cased extension of
    its declared name. *)
Theorem other_formats_written_unchanged out g (st : Locals) s f :
  s ∈ trace out g st →
  is_jpeg2000 (s_image s) = false →
  s_result s = Ok (Written f) →
  fs_write (os_path.join out f) (data (s_image s)) (w_fs (world (s_before s)))
  = (Ok tt, w_fs (world (s_after s)))
  ∧ (os_path.splitext f).2 = Str.lower (os_path.splitext (name (s_image s))).2
  ∧ Str.lower (os_path.splitext f).2 = (os_path.splitext f).2.
Proof.
  intros Hs Hjp Hres.
  destruct (written_shape _ _ _ _ _ Hs Hres) as (rn & pl & Hf & Hlen & Hnum & Hout & Hw & _).
  unfold output_data in Hout. rewrite Hjp in Hout. injection Hout as <-.
  split; [done|].
  rewrite Hf, splitext_make_filename by (done || apply output_ext_is_ext).
  simpl. unfold output_ext. rewrite Hjp. unfold declared_ext.
  split; [done|apply lower_idempotent].
Qed.

End Extraction_more.

(** ** Further properties of the helpers and of the upload endpoint *)

Section Endpoint_more.

Context {P : Platform}.

(** X6. [generate_random_number n] does not raise, returns exactly [n]
    decimal digits, and only moves the random generator: files and log
    are as before. *)
Theorem generate_random_number_digits n (w : World) :
  ∃ s w', generate_random_number n w = (Ok s, w')
          ∧ String.length s = n ∧ numeric s
          ∧ w_fs w' = w_fs w ∧ w_log w' = w_log w.
Proof.
  destruct (generate_random_number_spec n w) as (s & r & Heq & Hlen & Hnum).
  exists s, (set_rng r w). by rewrite Heq.
Qed.

(** X7. [allowed_file] never raises (the index after [rsplit] is guarded
    by the test for a dot) and accepts exactly the names whose part after
    the last dot is "pdf" in any letter case. *)
Theorem allowed_file_accepts_pdf_only s :
  (∃ b, allowed_file s = Ok b)
  ∧ (allowed_file s = Ok true ↔ has_pdf_extension s).
Proof. split; [apply allowed_file_total|apply allowed_file_spec]. Qed.

(** The body of a normal answer of [images_response]. *)
Lemma images_response_body l (w : World) :
  ∃ data, images_response l w = (Ok (make_response data 200), w)
          ∧ data !! "error" = None ∧ is_Some (data !! "message").
Proof.
  destruct l as [|f0 [|f1 l]]; unfold images_response;
    [rewrite bool_decide_eq_false_2 by (by intros []) | rewrite bool_decide_eq_true_2 by done ..].
  - eexists. split; [reflexivity|]. split; [done|]. by eexists.
  - rewrite (bool_decide_eq_true_2 (1 ≤ _)%nat) by (simpl; lia).
    rewrite (bool_decide_eq_false_2 (2 ≤ _)%nat) by (simpl; lia).
    unfold Monad.bind, Monad.lift, Monad.ret, index. simpl.
    eexists. split; [reflexivity|]. split; [done|]. by eexists.
  - rewrite (bool_decide_eq_true_2 (1 ≤ _)%nat) by (simpl; lia).
    rewrite (bool_decide_eq_true_2 (2 ≤ _)%nat) by (simpl; lia).
    unfold Monad.bind, Monad.lift, Monad.ret, index. simpl.
    eexists. split; [reflexivity|]. split; [done|]. by eexists.
Qed.

Lemma process_upload_body file (w w' : World) resp :
  process_upload file w = (Ok resp, w') →
  resp.2 = 200 ∧ resp.1 !! "error" = None ∧ is_Some (resp.1 !! "message").
Proof.
  destruct (generate_random_number_spec 30 w) as (rn & r & Hrn & _).
  rewrite (process_upload_eq _ _ _ _ Hrn). cbv zeta.
  destruct (open_write _ _ _) as [[[]|e] w2]; [|done].
  destruct (extract_images_from_pdf_total (os_path.join UPLOAD_FOLDER (rn +:+ ".pdf"))
              EXTRACTED_FOLDER w2) as (l & w3 & ->).
  edestruct images_response_body as (data & -> & Herr & Hmsg). intros [= <- <-].
  unfold make_response. simpl. rewrite !lookup_insert_ne by done. done.
Qed.

(** X8. An answer of the upload view has status 400 or 200. With 400 the
    body has an "error" and no "message", and the request changed
    nothing: no file saved, no random number drawn, nothing logged. With
    200 the body has a "message" and no "error". *)
Theorem upload_answers files (w w' : World) body status :
  upload_file files w = (Ok (body, status), w') →
  (status = 400 ∧ is_Some (body !! "error") ∧ body !! "message" = None ∧ w' = w)
  ∨ (status = 200 ∧ body !! "error" = None ∧ is_Some (body !! "message")).
Proof.
  assert (Hreject : ∀ msg : string,
            let resp := make_response {[ "error" := JString msg ]} 400 in
            is_Some (resp.1 !! "error") ∧ resp.1 !! "message" = None).
  { intros msg. unfold make_response. simpl.
    rewrite !lookup_insert_ne, lookup_singleton_eq, lookup_singleton_ne by done.
    split; [by eexists|done]. }
  unfold upload_file. destruct (files !! "file") as [file|].
  2:{ intros [= <- <- <-]. left. split; [done|]. by destruct (Hreject "No file part"). }
  destruct (bool_decide (filename file = "")).
  { intros [= <- <- <-]. left. split; [done|]. by destruct (Hreject "No selected file"). }
  destruct (allowed_file_total (filename file)) as [b Hb].
  unfold Monad.bind, Monad.lift, Monad.ret. rewrite Hb. destruct b; simpl.
  2:{ intros [= <- <- <-]. left. split; [done|]. by destruct (Hreject "Invalid file type"). }
  destruct (MAX_FILE_SIZE <? _).
  { intros [= <- <- <-]. left. split; [done|].
    by destruct (Hreject "File size exceeds 2 MB limit"). }
  intros Hup. right. by apply process_upload_body in Hup.
Qed.

(** X9. The upload view raises only when saving the upload raises: the
    request has passed the four checks, and the exception and the world
    are those of the failed save. The indexings of the view never
    raise. *)
Theorem upload_raises_only_on_save files (w w' : World) e :
  upload_file files w = (Raise e, w') →
  ∃ file rn w1,
    files !! "file" = Some file
    ∧ filename file ≠ ""
    ∧ has_pdf_extension (filename file)
    ∧ Z.of_nat (length (stream file)) ≤ MAX_FILE_SIZE
    ∧ generate_random_number 30 w = (Ok rn, w1)
    ∧ open_write (os_path.join UPLOAD_FOLDER (rn +:+ ".pdf")) (stream file) w1
      = (Raise e, w').
Proof.
  unfold upload_file. destruct (files !! "file") as [file|] eqn:Hfile; [|done].
  destruct (bool_decide (filename file = "")) eqn:Hname; [done|].
  apply bool_decide_eq_false_1 in Hname.
  destruct (allowed_file_total (filename file)) as [b Hb].
  unfold Monad.bind at 1. unfold Monad.lift. rewrite Hb. destruct b; simpl; [|done].
  apply allowed_file_spec in Hb.
  destruct (MAX_FILE_SIZE <? _) eqn:Hsize; [done|]. apply Z.ltb_ge in Hsize.
  destruct (generate_random_number_spec 30 w) as (rn & r & Hrn & _).
  rewrite (process_upload_eq _ _ _ _ Hrn). cbv zeta.
  destruct (open_write _ _ _) as [[[]|e'] w2] eqn:Hsave.
  - destruct (extract_images_from_pdf_total (os_path.join UPLOAD_FOLDER (rn +:+ ".pdf"))
                EXTRACTED_FOLDER w2) as (l & w3 & ->).
    by edestruct images_response_ok as [data ->].
  - intros [= <- <-]. by exists file, rn, (set_rng r w).
Qed.

(** X10. For an upload that passed the checks and was saved, the answer
    lists what the extraction returned: "totalImages" is the number of
    names as a decimal string; "images" has "user-image" for the first
    name, "sign-image" for the second when there is one, "extra-images"
    for the names from the third on, in order, when there is a third, and
    no other key; the names are named by position, so each role is given
    to the file whose name carries its prefix. *)
Theorem upload_lists_extracted_files files file rn (w w1 w2 w3 : World) extracted :
  files !! "file" = Some file →
  filename file ≠ "" →
  has_pdf_extension (filename file) →
  Z.of_nat (length (stream file)) ≤ MAX_FILE_SIZE →
  generate_random_number 30 w = (Ok rn, w1) →
  let pdf_path := os_path.join UPLOAD_FOLDER (rn +:+ ".pdf") in
  open_write pdf_path (stream file) w1 = (Ok tt, w2) →
  extract_images_from_pdf pdf_path EXTRACTED_FOLDER w2 = (Ok extracted, w3) →
  extracted ≠ [] →
  ∃ body images_dict w',
    upload_file files w = (Ok (body, 200), w')
    ∧ body !! "message" = Some (JString "Images extracted successfully")
    ∧ body !! "totalImages" = Some (JString (pretty (length extracted)))
    ∧ body !! "images" = Some (JObject images_dict)
    ∧ images_dict !! "user-image" = download_url <$> extracted !! 0%nat
    ∧ images_dict !! "sign-image" = download_url <$> extracted !! 1%nat
    ∧ images_dict !! "extra-images"
      = (if bool_decide (2 < length extracted)%nat
         then Some (JArray (download_url <$> drop 2 extracted)) else None)
    ∧ dom images_dict ⊆ {[ "user-image"; "sign-image"; "extra-images" ]}
    ∧ positional extracted.
Proof.
  intros Hfile Hname Hallowed Hsize Hrn pdf_path Hsave Hextract Hne.
  rewrite (upload_file_checked _ _ _ Hfile Hname Hallowed).
  rewrite (proj2 (Z.ltb_ge _ _)) by done.
  rewrite (process_upload_eq _ _ _ _ Hrn). fold pdf_path. rewrite Hsave, Hextract.
  pose proof (extract_images_from_pdf_positional _ _ _ _ _ Hextract) as Hpos.
  unfold images_response. rewrite bool_decide_eq_true_2 by done.
  destruct extracted as [|f0 [|f1 [|f2 l]]]; [done|..].
  - rewrite (bool_decide_eq_true_2 (1 ≤ _)%nat) by (simpl; lia).
    rewrite (bool_decide_eq_false_2 (2 ≤ _)%nat) by (simpl; lia).
    rewrite (bool_decide_eq_false_2 (2 < _)%nat) by (simpl; lia).
    unfold Monad.bind, Monad.lift, Monad.ret, index, make_response. simpl.
    eexists _, _, _. split; [reflexivity|]. do 3 (split; [reflexivity|]).
    do 3 (split; [reflexivity|]). split; [|done].
    rewrite dom_insert_L, dom_empty_L. clear. intros x. set_unfold; tauto.
  - rewrite (bool_decide_eq_true_2 (1 ≤ _)%nat) by (simpl; lia).
    rewrite (bool_decide_eq_true_2 (2 ≤ _)%nat) by (simpl; lia).
    rewrite (bool_decide_eq_false_2 (2 < _)%nat) by (simpl; lia).
    unfold Monad.bind, Monad.lift, Monad.ret, index, make_response. simpl.
    eexists _, _, _. split; [reflexivity|]. do 3 (split; [reflexivity|]).
    do 3 (split; [reflexivity|]). split; [|done].
    rewrite !dom_insert_L, dom_empty_L. clear. intros x. set_unfold; tauto.
  - rewrite (bool_decide_eq_true_2 (1 ≤ _)%nat) by (simpl; lia).
    rewrite (bool_decide_eq_true_2 (2 ≤ _)%nat) by (simpl; lia).
    rewrite (bool_decide_eq_true_2 (2 < _)%nat) by (simpl; lia).
    unfold Monad.bind, Monad.lift, Monad.ret, index, make_response. simpl.
    eexists _, _, _. split; [reflexivity|]. do 3 (split; [reflexivity|]).
    do 3 (split; [reflexivity|]). split; [|done].
    rewrite !dom_insert_L, dom_empty_L. clear. intros x. set_unfold; tauto.
Qed.

(** X11. For an upload that passed the checks and was saved, the view
    tries to remove the saved file once the extraction is over, whatever
    the extraction returned; when the removal raises, the answer is the
    same 200 and the failure is one more line of the log. *)
Theorem upload_removes_saved_file files file rn (w w1 w2 w3 : World) extracted :
  files !! "file" = Some file →
  filename file ≠ "" →
  has_pdf_extension (filename file) →
  Z.of_nat (length (stream file)) ≤ MAX_FILE_SIZE →
  generate_random_number 30 w = (Ok rn, w1) →
  let pdf_path := os_path.join UPLOAD_FOLDER (rn +:+ ".pdf") in
  open_write pdf_path (stream file) w1 = (Ok tt, w2) →
  extract_images_from_pdf pdf_path EXTRACTED_FOLDER w2 = (Ok extracted, w3) →
  ∃ resp w',
    upload_file files w = (Ok resp, w')
    ∧ (images_response extracted w').1 = Ok resp
    ∧ w_fs w' = (fs_remove pdf_path (w_fs w3)).2
    ∧ w_rng w' = w_rng w3
    ∧ w_log w' = match (fs_remove pdf_path (w_fs w3)).1 with
                 | Ok _ => w_log w3
                 | Raise e => w_log w3 ++ ["Failed to delete PDF: " +:+ exn_msg e]
                 end.
Proof.
  intros Hfile Hname Hallowed Hsize Hrn pdf_path Hsave Hextract.
  rewrite (upload_file_checked _ _ _ Hfile Hname Hallowed).
  rewrite (proj2 (Z.ltb_ge _ _)) by done.
  rewrite (process_upload_eq _ _ _ _ Hrn). fold pdf_path. rewrite Hsave, Hextract.
  unfold Monad.try_except, os_remove, Monad.zoom, logging_error, Monad.modify.
  destruct (fs_remove pdf_path (w_fs w3)) as [[[]|e] fs4]; simpl;
    edestruct images_response_ok as [data Hresp]; rewrite Hresp;
    eexists _, _; (split; [reflexivity|]); by rewrite Hresp.
Qed.

(** X12. The file name the client sends decides only whether the upload
    is accepted: two uploads with the same content whose names both pass
    the checks get the same answer and leave the same world, so the name
    reaches neither the file system nor the response. *)
Theorem client_filename_not_used files files' file file' (w : World) :
  files !! "file" = Some file → files' !! "file" = Some file' →
  filename file ≠ "" → filename file' ≠ "" →
  has_pdf_extension (filename file) → has_pdf_extension (filename file') →
  stream file = stream file' →
  upload_file files w = upload_file files' w.
Proof.
  intros Hfile Hfile' Hname Hname' Hext Hext' Hstream.
  rewrite (upload_file_checked _ _ _ Hfile Hname Hext).
  rewrite (upload_file_checked _ _ _ Hfile' Hname' Hext').
  unfold process_upload. by rewrite Hstream.
Qed.

End Endpoint_more.

(** ** Runs on the sample documents *)

Section Form_runs.

#[local] Existing Instance Sample.P_form.

Example observe_trace_form :
  observe <$>
    trace Sample.out (all_images (pages Sample.form)) (initial_locals Sample.w_form)
  = [(Sample.photo, Ok (Written "user-img-883517092697405393766851741526.png"), false);
     (Sample.signature, Ok (Written "sign-img-454217431688537653243043282775.png"), false);
     (Sample.photo, Ok Duplicate, true);
     (Sample.broken, Ok ConversionFailed, false);
     (Sample.stamp, Ok (Written "931409879660864265143236091161.png"), false);
     (Sample.broken, Ok Duplicate, true)].
Proof. vm_compute. reflexivity. Qed.

Example extract_form :
  (extract_images_from_pdf Sample.path Sample.out Sample.w_form).1
  = Ok ["user-img-883517092697405393766851741526.png";
        "sign-img-454217431688537653243043282775.png";
        "931409879660864265143236091161.png"].
Proof. vm_compute. reflexivity. Qed.

Lemma dedup_first_occurrence_wins_witness :
  pdf_open Sample.path (w_fs Sample.w_form) = Ok Sample.form
  ∧ let imgs := all_images (pages Sample.form) in
    let tr := trace Sample.out imgs (initial_locals Sample.w_form) in
    (extract_images_from_pdf Sample.path Sample.out Sample.w_form).1 = Ok (written tr)
    ∧ s_image <$> tr `prefix_of` gen_items imgs
    ∧ (∀ (i j : nat) si sj, (i < j)%nat → tr !! i = Some si → tr !! j = Some sj →
         data (s_image si) = data (s_image sj) →
         s_result sj = Ok Duplicate ∧ s_after sj = s_before sj)
    ∧ (∀ (i j : nat) si sj fi fj, (i < j)%nat →
         tr !! i = Some si → tr !! j = Some sj →
         s_result si = Ok (Written fi) → s_result sj = Ok (Written fj) →
         py_hash (data (s_image si)) ≠ py_hash (data (s_image sj))).
Proof.
  split; [reflexivity|].
  exact (dedup_first_occurrence_wins Sample.path Sample.out Sample.w_form Sample.form eq_refl).
Defined.

(** The fourth image of the form is the undecodable ".jpx". *)
Lemma form_fourth_step :
  ∃ si, trace Sample.out (all_images (pages Sample.form)) (initial_locals Sample.w_form)
          !! 3%nat = Some si
        ∧ s_image si = Sample.broken
        ∧ s_result si = Ok ConversionFailed
        ∧ py_hash (data (s_image si)) ∉ seen_images (s_before si).
Proof.
  assert (Hobs : (observe <$> trace Sample.out (all_images (pages Sample.form))
                     (initial_locals Sample.w_form)) !! 3%nat
                 = Some (Sample.broken, Ok ConversionFailed, false))
    by (rewrite observe_trace_form; reflexivity).
  apply list_lookup_fmap_Some_1 in Hobs as (si & Heq & Hi).
  injection Heq as Himg Hres Hfresh. symmetry in Hfresh.
  exists si. split; [exact Hi|]. split; [done|]. split; [done|].
  by apply bool_decide_eq_false_1 in Hfresh.
Qed.

Lemma failed_conversion_blocks_content_witness :
  let tr := trace Sample.out (all_images (pages Sample.form)) (initial_locals Sample.w_form) in
  ∃ si, pdf_open Sample.path (w_fs Sample.w_form) = Ok Sample.form
        ∧ tr !! 3%nat = Some si
        ∧ s_result si = Ok ConversionFailed
        ∧ is_jpeg2000 (s_image si) = true
        ∧ (∃ e, convert_to_png (data (s_image si)) = Raise e)
        ∧ (py_hash (data (s_image si)) ∉ seen_images (s_before si))
        ∧ py_hash (data (s_image si)) ∈ seen_images (s_after si)
        ∧ (∀ (j : nat) sj, (3 < j)%nat → tr !! j = Some sj →
             data (s_image sj) = data (s_image si) →
             s_result sj = Ok Duplicate ∧ s_after sj = s_before sj)
        ∧ (∀ (k : nat) sk f, tr !! k = Some sk →
             data (s_image sk) = data (s_image si) →
             s_result sk ≠ Ok (Written f)).
Proof.
  intros tr. destruct form_fourth_step as (si & Hi & _ & Hres & _).
  exists si. split; [reflexivity|]. split; [exact Hi|]. split; [exact Hres|].
  exact (failed_conversion_blocks_content Sample.path Sample.out Sample.w_form
           Sample.form 3 si eq_refl Hi Hres).
Defined.


End Form_runs.

Section Card_runs.

#[local] Existing Instance Sample.P_card.

Example extract_card :
  (extract_images_from_pdf Sample.path Sample.out Sample.w_card).1
  = Ok ["user-img-883517092697405393766851741526.png";
        "sign-img-454217431688537653243043282775.png";
        "931409879660864265143236091161.jpg"].
Proof. vm_compute. reflexivity. Qed.

End Card_runs.

Section Card_images_runs.

#[local] Existing Instance Sample.P_card_images.

(** On this platform a write outside the output directory fails; the
    three writes of the run succeed. *)
Lemma distinct_hashes_give_all_files_witness :
  let imgs := [Sample.photo; Sample.signature; Sample.logo] in
  pdf_open Sample.path (w_fs Sample.w_card_images) = Ok Sample.card
  ∧ all_images (pages Sample.card) = gen_prepend imgs GDone
  ∧ NoDup (py_hash ∘ data <$> imgs)
  ∧ (∀ image, image ∈ imgs → ∃ payload, output_data image = Ok payload)
  ∧ (∀ s, s ∈ trace Sample.out (all_images (pages Sample.card))
                (initial_locals Sample.w_card_images) →
          ∃ o, s_result s = Ok o)
  ∧ (fs_write "/app/uploads/other.pdf" [] (w_fs Sample.w_card_images)).1
    = Raise (Exception "Permission denied")
  ∧ ∃ files,
      (extract_images_from_pdf Sample.path Sample.out Sample.w_card_images).1 = Ok files
      ∧ length files = 3%nat
      ∧ ∀ (i : nat) f, files !! i = Some f →
          ∃ image rn, imgs !! i = Some image
            ∧ f = position_prefix i +:+ rn +:+ output_ext image
            ∧ String.length rn = 30%nat ∧ numeric rn.
Proof.
  intros imgs.
  assert (Hnd : NoDup (py_hash ∘ data <$> imgs)).
  { apply (bool_decide_unpack _). vm_compute. exact I. }
  assert (Hout : ∀ image, image ∈ imgs → ∃ payload, output_data image = Ok payload).
  { intros image Hin. unfold imgs in Hin.
    repeat (apply elem_of_cons in Hin as [->|Hin]; [eexists; reflexivity|]).
    by apply elem_of_nil in Hin. }
  assert (Hres : s_result <$> trace Sample.out (all_images (pages Sample.card))
                                (initial_locals Sample.w_card_images)
                 = [Ok (Written "user-img-883517092697405393766851741526.png");
                    Ok (Written "sign-img-454217431688537653243043282775.png");
                    Ok (Written "931409879660864265143236091161.jpg")])
    by (vm_compute; reflexivity).
  assert (Hok : ∀ s, s ∈ trace Sample.out (all_images (pages Sample.card))
                         (initial_locals Sample.w_card_images) →
                     ∃ o, s_result s = Ok o).
  { intros s Hs. assert (Hin : s_result s ∈ s_result <$>
                           trace Sample.out (all_images (pages Sample.card))
                             (initial_locals Sample.w_card_images))
      by (apply list_elem_of_fmap; exists s; split; [reflexivity|exact Hs]).
    clear Hs. rewrite Hres in Hin.
    repeat (apply elem_of_cons in Hin as [Heq|Hin]; [eexists; exact Heq|]).
    apply elem_of_nil in Hin. destruct Hin. }
  split; [reflexivity|]. split; [reflexivity|]. split; [exact Hnd|].
  split; [exact Hout|]. split; [exact Hok|]. split; [reflexivity|].
  exact (distinct_hashes_give_all_files Sample.path Sample.out Sample.w_card_images
           Sample.card imgs eq_refl eq_refl Hnd Hout Hok).
Defined.

End Card_images_runs.

Section Card_two_runs.

#[local] Existing Instance Sample.P_card_two.

(** The third file cannot be written: the two names before are returned. *)
Example extract_card_two :
  (extract_images_from_pdf Sample.path Sample.out Sample.w_card_two).1
  = Ok ["user-img-883517092697405393766851741526.png";
        "sign-img-454217431688537653243043282775.png"].
Proof. vm_compute. reflexivity. Qed.

Lemma partial_result_on_exception_witness :
  let l := [Sample.photo; Sample.signature] in
  let g := GYield Sample.logo GDone in
  let run := for_each (gen_prepend l GDone) (process_image Sample.out)
               (initial_locals Sample.w_card_two) in
  let e := Exception "Permission denied" in
  pdf_open Sample.path (w_fs Sample.w_card_two) = Ok Sample.card
  ∧ all_images (pages Sample.card) = gen_prepend l g
  ∧ run = (Ok tt, run.2)
  ∧ (process_image Sample.out Sample.logo run.2).1 = Raise e
  ∧ extracted_files run.2 = ["user-img-883517092697405393766851741526.png";
                              "sign-img-454217431688537653243043282775.png"]
  ∧ ∃ w',
      extract_images_from_pdf Sample.path Sample.out Sample.w_card_two
      = (Ok (extracted_files run.2), w')
      ∧ extracted_files run.2
        = written (trace Sample.out (gen_prepend l GDone) (initial_locals Sample.w_card_two))
      ∧ last (w_log w') = Some ("Failed to extract images: " +:+ exn_msg e).
Proof.
  intros l g run e.
  assert (Hrun : run = (Ok tt, run.2)).
  { assert (H1 : run.1 = Ok tt) by (vm_compute; reflexivity).
    rewrite <- H1. by destruct run. }
  assert (Hstep : (process_image Sample.out Sample.logo run.2).1 = Raise e)
    by (vm_compute; reflexivity).
  split; [reflexivity|]. split; [reflexivity|]. split; [exact Hrun|].
  split; [exact Hstep|]. split; [vm_compute; reflexivity|].
  refine (partial_result_on_exception Sample.path Sample.out Sample.w_card_two
            Sample.card l g run.2 e eq_refl eq_refl Hrun _).
  right. exists Sample.logo, GDone, (process_image Sample.out Sample.logo run.2).2.
  split; [reflexivity|]. rewrite <- Hstep. by destruct (process_image _ _ _).
Defined.

End Card_two_runs.

Section Twins_runs.

#[local] Existing Instance Sample.P_twins.

(** The claim C2 as the specification states it fails where two payloads
    share a hash. On the usual platform, with its polynomial hash: the
    seal and the crest have different bytes, neither is of the JPEG2000
    family, the document enumerates both without an exception and every
    write succeeds; their payloads have one hash, the crest is skipped
    as a duplicate and the call returns one name, not two. Nor is this
    particular to that hash: a hash of 64 bits, whatever it is, has two
    payloads that collide in the same way. *)
Lemma distinct_bytes_one_file :
  data Sample.seal ≠ data Sample.crest
  ∧ pdf_open Sample.path (w_fs Sample.w_twins) = Ok Sample.twins
  ∧ all_images (pages Sample.twins) = gen_prepend [Sample.seal; Sample.crest] GDone
  ∧ is_jpeg2000 Sample.seal = false ∧ is_jpeg2000 Sample.crest = false
  ∧ (∀ file_path content fs, (fs_write file_path content fs).1 = Ok tt)
  ∧ py_hash (data Sample.seal) = py_hash (data Sample.crest)
  ∧ (extract_images_from_pdf Sample.path Sample.out Sample.w_twins).1
    = Ok ["user-img-883517092697405393766851741526.png"]
  ∧ s_result <$> trace Sample.out (all_images (pages Sample.twins))
                   (initial_locals Sample.w_twins)
    = [Ok (Written "user-img-883517092697405393766851741526.png"); Ok Duplicate]
  ∧ (∀ Q : Platform, ∃ b1 b2 : bytes, b1 ≠ b2 ∧ @py_hash Q b1 = @py_hash Q b2).
Proof.
  split; [discriminate|]. do 5 (split; [reflexivity|]).
  split; [vm_compute; reflexivity|].
  split; [vm_compute; reflexivity|]. split; [vm_compute; reflexivity|].
  intros Q. apply py_hash_collision.
Qed.

End Twins_runs.

Section Scan_runs.

#[local] Existing Instance Sample.P_scan.

(** The claim C3 as the specification states it fails on an alpha-channel
    mode other than "RGBA": the stamp, a ".jp2" image, opens with mode
    "LA"; it is saved as PNG without a conversion, and the file written
    for it opens with mode "LA", not "RGB". *)
Lemma alpha_mode_not_converted :
  is_jpeg2000 Sample.stamp = true
  ∧ Image_open (data Sample.stamp) = Ok ("LA", [Byte.x41])
  ∧ indexed_or_alpha "LA" = true
  ∧ pdf_open Sample.path (w_fs Sample.w_scan) = Ok Sample.scan
  ∧ all_images (pages Sample.scan) = GYield Sample.stamp GDone
  ∧ let run := extract_images_from_pdf Sample.path Sample.out Sample.w_scan in
    run.1 = Ok ["user-img-883517092697405393766851741526.png"]
    ∧ match w_fs run.2 !! "/app/images/user-img-883517092697405393766851741526.png" with
      | Some png =>
          convert_to_png (data Sample.stamp) = Ok png
          ∧ Image_open png = Ok ("LA", [Byte.x41])
      | None => False
      end.
Proof.
  do 5 (split; [reflexivity|]). split; [vm_compute; reflexivity|].
  assert (H : w_fs (extract_images_from_pdf Sample.path Sample.out Sample.w_scan).2
              !! "/app/images/user-img-883517092697405393766851741526.png"
              = Some [Byte.x89; Byte.x03; Byte.x41]) by (vm_compute; reflexivity).
  rewrite H. split; reflexivity.
Qed.

End Scan_runs.

Section No_upload_runs.

#[local] Existing Instance Sample.P_no_upload.

(** The claim C7 as the specification states it fails when the upload
    cannot be saved: the request passes the four checks, and the view
    raises; the answer is a 500, not a 200. *)
Lemma valid_request_without_200 :
  let files : gmap string FileStorage := {[ "file" := Sample.upload 3 ]} in
  files !! "file" = Some (Sample.upload 3)
  ∧ filename (Sample.upload 3) ≠ ""
  ∧ has_pdf_extension (filename (Sample.upload 3))
  ∧ Z.of_nat (length (stream (Sample.upload 3))) ≤ MAX_FILE_SIZE
  ∧ (upload_file files Sample.w_no_upload).1 = Raise (Exception "Permission denied")
  ∧ (serve (POST_images files) Sample.w_no_upload).1 = HttpError 500.
Proof.
  intros files. split; [reflexivity|]. split; [done|].
  split; [by exists "scan", "PDF"|]. split; [by vm_compute|].
  split; vm_compute; reflexivity.
Qed.

End No_upload_runs.

Section Upload_runs.

#[local] Existing Instance Sample.P_card.

Lemma size_gate_boundary_witness :
  let big := Sample.upload (Z.to_nat (2 * 1024 * 1024 + 1)) in
  let exact := Sample.upload (Z.to_nat (2 * 1024 * 1024)) in
  let w := Toy.start ∅ 1 in
  (({[ "file" := big ]} : gmap string FileStorage) !! "file" = Some big
   ∧ filename big ≠ "" ∧ has_pdf_extension (filename big)
   ∧ Z.of_nat (length (stream big)) > MAX_FILE_SIZE
   ∧ upload_file {[ "file" := big ]} w =
     (Ok (make_response {[ "error" := JString "File size exceeds 2 MB limit" ]} 400), w))
  ∧ (({[ "file" := exact ]} : gmap string FileStorage) !! "file" = Some exact
     ∧ filename exact ≠ "" ∧ has_pdf_extension (filename exact)
     ∧ Z.of_nat (length (stream exact)) = 2 * 1024 * 1024
     ∧ upload_file {[ "file" := exact ]} w = process_upload exact w
     ∧ ∀ resp w', process_upload exact w = (Ok resp, w') → resp.2 = 200).
Proof.
  intros big exact w.
  assert (Hext : ∀ n, has_pdf_extension (filename (Sample.upload n)))
    by (intros n; by exists "scan", "PDF").
  assert (Hname : ∀ n, filename (Sample.upload n) ≠ "") by done.
  assert (Hlen : ∀ n, Z.of_nat (length (stream (Sample.upload n))) = Z.of_nat n)
    by (intros n; unfold Sample.upload; simpl; by rewrite length_replicate).
  split.
  - assert (Hbig : Z.of_nat (length (stream big)) > MAX_FILE_SIZE).
    { unfold big. rewrite Hlen, Z2Nat.id by lia. unfold MAX_FILE_SIZE. lia. }
    split; [apply lookup_singleton_eq|]. split; [apply Hname|]. split; [apply Hext|].
    split; [exact Hbig|].
    exact (proj1 (proj2 (size_gate_boundary {[ "file" := big ]} big w
                           (lookup_singleton_eq _ _) (Hname _) (Hext _))) Hbig).
  - assert (Hexact : Z.of_nat (length (stream exact)) = 2 * 1024 * 1024).
    { unfold exact. rewrite Hlen, Z2Nat.id by lia. done. }
    split; [apply lookup_singleton_eq|]. split; [apply Hname|]. split; [apply Hext|].
    split; [exact Hexact|].
    exact (proj2 (proj2 (size_gate_boundary {[ "file" := exact ]} exact w
                           (lookup_singleton_eq _ _) (Hname _) (Hext _))) Hexact).
Defined.

Example upload_card :
  let run := upload_file {[ "file" := Sample.upload 3 ]} (Toy.start ∅ 1) in
  match run.1 with
  | Ok (body, status) =>
      status = 200
      ∧ body !! "message" = Some (JString "Images extracted successfully")
      ∧ body !! "totalImages" = Some (JString "3")
      ∧ body !! "TG_Channel" = Some TG_Channel
  | Raise _ => False
  end.
Proof. vm_compute. repeat split. Qed.

Lemma json_responses_tagged_witness :
  let w := Toy.start ∅ 1 in
  (serve GET_home w).1
  = Json {[ "TG_Channel" := JString "@UNKNOWN_X_1337_BOT";
            "status" := JString "Images Extractor Active" ]} 200
  ∧ ({[ "TG_Channel" := JString "@UNKNOWN_X_1337_BOT";
        "status" := JString "Images Extractor Active" ]} : gmap string json)
      !! "TG_Channel" = Some (JString "@UNKNOWN_X_1337_BOT").
Proof.
  intros w. split; [reflexivity|].
  exact (json_responses_tagged GET_home w _ 200 eq_refl).
Defined.

End Upload_runs.

Section Blank_runs.

(** An upload without images and an upload that does not parse get the
    same answer; only the log tells them apart. *)
Example upload_blank_or_corrupt :
  let files : gmap string FileStorage := {[ "file" := Sample.upload 3 ]} in
  let no_images :=
    Ok (make_response {[ "message" := JString "No images found in the PDF" ]} 200) in
  let blank := upload_file files (@Toy.start Sample.P_blank ∅ 1) in
  let corrupt := upload_file files (@Toy.start Sample.P_corrupt ∅ 1) in
  blank.1 = no_images ∧ corrupt.1 = no_images
  ∧ w_log blank.2 = []
  ∧ w_log corrupt.2 = ["Failed to extract images: EOF marker not found"].
Proof. repeat split; vm_compute; reflexivity. Qed.

End Blank_runs.

Section Forms_runs.

#[local] Existing Instance Sample.P_forms.

Lemma later_copy_changes_nothing_witness :
  let l := [Sample.photo; Sample.signature] in
  let g := gen_prepend [Sample.broken; Sample.stamp; Sample.broken] GDone in
  pdf_open Sample.path (w_fs Sample.w_forms) = Ok Sample.form
  ∧ pdf_open Sample.path' (w_fs Sample.w_forms) = Ok Sample.form_once
  ∧ all_images (pages Sample.form) = gen_prepend l (GYield Sample.photo g)
  ∧ all_images (pages Sample.form_once) = gen_prepend l g
  ∧ (∃ image', image' ∈ l ∧ data image' = data Sample.photo)
  ∧ extract_images_from_pdf Sample.path Sample.out Sample.w_forms
    = extract_images_from_pdf Sample.path' Sample.out Sample.w_forms.
Proof.
  intros l g.
  assert (Hcopy : ∃ image', image' ∈ l ∧ data image' = data Sample.photo)
    by (exists Sample.photo; split; [left|reflexivity]).
  do 4 (split; [reflexivity|]). split; [exact Hcopy|].
  exact (later_copy_changes_nothing Sample.path Sample.path' Sample.out Sample.w_forms
           Sample.form Sample.form_once l Sample.photo g
           eq_refl eq_refl eq_refl eq_refl Hcopy).
Defined.

End Forms_runs.

Section Form_more_runs.

#[local] Existing Instance Sample.P_form.

Lemma at_most_one_file_per_fingerprint_witness :
  let imgs := gen_items (all_images (pages Sample.form)) in
  pdf_open Sample.path (w_fs Sample.w_form) = Ok Sample.form
  ∧ length imgs = 6%nat
  ∧ size (fingerprints imgs) = 4%nat
  ∧ ∃ files w', extract_images_from_pdf Sample.path Sample.out Sample.w_form = (Ok files, w')
                ∧ (length files ≤ size (fingerprints imgs))%nat
                ∧ (size (fingerprints imgs) ≤ length imgs)%nat.
Proof.
  intros imgs. split; [reflexivity|]. split; [reflexivity|].
  split; [vm_compute; reflexivity|].
  exact (at_most_one_file_per_fingerprint Sample.path Sample.out Sample.w_form
           Sample.form eq_refl).
Defined.

(** The first image of the form is the photo, a ".png". *)
Lemma form_first_step :
  ∃ s, s ∈ trace Sample.out (all_images (pages Sample.form)) (initial_locals Sample.w_form)
       ∧ s_image s = Sample.photo
       ∧ s_result s = Ok (Written "user-img-883517092697405393766851741526.png").
Proof.
  assert (Hobs : (observe <$> trace Sample.out (all_images (pages Sample.form))
                     (initial_locals Sample.w_form)) !! 0%nat
                 = Some (Sample.photo,
                         Ok (Written "user-img-883517092697405393766851741526.png"), false))
    by (rewrite observe_trace_form; reflexivity).
  apply list_lookup_fmap_Some_1 in Hobs as (s & Heq & Hs).
  injection Heq as Himg Hres _.
  exists s. split; [by eapply list_elem_of_lookup_2|]. by split.
Qed.

Lemma written_inside_output_directory_witness :
  let f := "user-img-883517092697405393766851741526.png" in
  ∃ s, s ∈ trace Sample.out (all_images (pages Sample.form)) (initial_locals Sample.w_form)
       ∧ s_result s = Ok (Written f)
       ∧ Str.contains "/" f = false
       ∧ f ≠ ""
       ∧ os_path.join Sample.out f
         = (if bool_decide (Sample.out = "") || Str.endswith "/" Sample.out
            then Sample.out +:+ f else Sample.out +:+ "/" +:+ f)
       ∧ ∃ payload, fs_write (os_path.join Sample.out f) payload (w_fs (world (s_before s)))
                    = (Ok tt, w_fs (world (s_after s))).
Proof.
  intros f. destruct form_first_step as (s & Hs & _ & Hres).
  exists s. split; [exact Hs|]. split; [exact Hres|].
  exact (written_inside_output_directory Sample.out _ _ s f Hs Hres).
Defined.

Lemma other_formats_written_unchanged_witness :
  let f := "user-img-883517092697405393766851741526.png" in
  ∃ s, s ∈ trace Sample.out (all_images (pages Sample.form)) (initial_locals Sample.w_form)
       ∧ is_jpeg2000 (s_image s) = false
       ∧ s_result s = Ok (Written f)
       ∧ fs_write (os_path.join Sample.out f) (data (s_image s)) (w_fs (world (s_before s)))
         = (Ok tt, w_fs (world (s_after s)))
       ∧ (os_path.splitext f).2 = Str.lower (os_path.splitext (name (s_image s))).2
       ∧ Str.lower (os_path.splitext f).2 = (os_path.splitext f).2.
Proof.
  intros f. destruct form_first_step as (s & Hs & Himg & Hres).
  assert (Hjp : is_jpeg2000 (s_image s) = false) by (rewrite Himg; reflexivity).
  exists s. split; [exact Hs|]. split; [exact Hjp|]. split; [exact Hres|].
  exact (other_formats_written_unchanged Sample.out _ _ s f Hs Hjp Hres).
Defined.

End Form_more_runs.

Section Upload_more_runs.

#[local] Existing Instance Sample.P_card.

Lemma upload_answers_witness :
  let w := Toy.start ∅ 1 in
  let body : gmap string json :=
    {[ "TG_Channel" := JString "@UNKNOWN_X_1337_BOT";
       "error" := JString "No file part" ]} in
  upload_file ∅ w = (Ok (body, 400), w)
  ∧ ((400 = 400 ∧ is_Some (body !! "error") ∧ body !! "message" = None ∧ w = w)
     ∨ (400 = 200 ∧ body !! "error" = None ∧ is_Some (body !! "message"))).
Proof.
  intros w body. split; [reflexivity|].
  exact (upload_answers ∅ w w body 400 eq_refl).
Defined.

(** The run of the view on the 3-byte upload, step by step. *)
Lemma upload_card_steps :
  let w := Toy.start ∅ 1 in
  let rn := "883517092697405393766851741526" in
  let pdf_path := os_path.join UPLOAD_FOLDER (rn +:+ ".pdf") in
  let w1 := (generate_random_number 30 w).2 in
  let w2 := (open_write pdf_path (stream (Sample.upload 3)) w1).2 in
  let extracted := ["user-img-454217431688537653243043282775.png";
                    "sign-img-931409879660864265143236091161.png";
                    "059453498121472563641834308009.jpg"] in
  let w3 := (extract_images_from_pdf pdf_path EXTRACTED_FOLDER w2).2 in
  generate_random_number 30 w = (Ok rn, w1)
  ∧ open_write pdf_path (stream (Sample.upload 3)) w1 = (Ok tt, w2)
  ∧ extract_images_from_pdf pdf_path EXTRACTED_FOLDER w2 = (Ok extracted, w3).
Proof.
  intros w rn pdf_path w1 w2 extracted w3.
  assert (H1 : (generate_random_number 30 w).1 = Ok rn) by (vm_compute; reflexivity).
  assert (H2 : (open_write pdf_path (stream (Sample.upload 3)) w1).1 = Ok tt)
    by (vm_compute; reflexivity).
  assert (H3 : (extract_images_from_pdf pdf_path EXTRACTED_FOLDER w2).1 = Ok extracted)
    by (vm_compute; reflexivity).
  split; [|split].
  - rewrite <- H1. unfold w1. by destruct (generate_random_number 30 w).
  - rewrite <- H2. unfold w2. by destruct (open_write _ _ _).
  - rewrite <- H3. unfold w3. by destruct (extract_images_from_pdf _ _ _).
Qed.

Lemma upload_lists_extracted_files_witness :
  let files : gmap string FileStorage := {[ "file" := Sample.upload 3 ]} in
  let w := Toy.start ∅ 1 in
  let extracted := ["user-img-454217431688537653243043282775.png";
                    "sign-img-931409879660864265143236091161.png";
                    "059453498121472563641834308009.jpg"] in
  ∃ body images_dict w',
    upload_file files w = (Ok (body, 200), w')
    ∧ body !! "message" = Some (JString "Images extracted successfully")
    ∧ body !! "totalImages" = Some (JString (pretty (length extracted)))
    ∧ body !! "images" = Some (JObject images_dict)
    ∧ images_dict !! "user-image" = download_url <$> extracted !! 0%nat
    ∧ images_dict !! "sign-image" = download_url <$> extracted !! 1%nat
    ∧ images_dict !! "extra-images"
      = (if bool_decide (2 < length extracted)%nat
         then Some (JArray (download_url <$> drop 2 extracted)) else None)
    ∧ dom images_dict ⊆ {[ "user-image"; "sign-image"; "extra-images" ]}
    ∧ positional extracted.
Proof.
  intros files w extracted.
  assert (Hname : filename (Sample.upload 3) ≠ "") by done.
  assert (Hext : has_pdf_extension (filename (Sample.upload 3)))
    by (exists "scan", "PDF"; repeat split).
  assert (Hsize : Z.of_nat (length (stream (Sample.upload 3))) ≤ MAX_FILE_SIZE)
    by (by vm_compute).
  assert (Hne : extracted ≠ []) by done.
  destruct upload_card_steps as (Hrn & Hsave & Hextract).
  exact (upload_lists_extracted_files files (Sample.upload 3) _ w _ _ _ extracted
           (lookup_singleton_eq _ _) Hname Hext Hsize Hrn Hsave Hextract Hne).
Defined.

Lemma upload_removes_saved_file_witness :
  let files : gmap string FileStorage := {[ "file" := Sample.upload 3 ]} in
  let w := Toy.start ∅ 1 in
  let rn := "883517092697405393766851741526" in
  let pdf_path := os_path.join UPLOAD_FOLDER (rn +:+ ".pdf") in
  let w1 := (generate_random_number 30 w).2 in
  let w2 := (open_write pdf_path (stream (Sample.upload 3)) w1).2 in
  let extracted := ["user-img-454217431688537653243043282775.png";
                    "sign-img-931409879660864265143236091161.png";
                    "059453498121472563641834308009.jpg"] in
  let w3 := (extract_images_from_pdf pdf_path EXTRACTED_FOLDER w2).2 in
  (generate_random_number 30 w = (Ok rn, w1)
   ∧ open_write pdf_path (stream (Sample.upload 3)) w1 = (Ok tt, w2)
   ∧ extract_images_from_pdf pdf_path EXTRACTED_FOLDER w2 = (Ok extracted, w3))
  ∧ ∃ resp w',
      upload_file files w = (Ok resp, w')
      ∧ (images_response extracted w').1 = Ok resp
      ∧ w_fs w' = (fs_remove pdf_path (w_fs w3)).2
      ∧ w_rng w' = w_rng w3
      ∧ w_log w' = match (fs_remove pdf_path (w_fs w3)).1 with
                   | Ok _ => w_log w3
                   | Raise e => w_log w3 ++ ["Failed to delete PDF: " +:+ exn_msg e]
                   end.
Proof.
  intros files w rn pdf_path w1 w2 extracted w3.
  assert (Hname : filename (Sample.upload 3) ≠ "") by done.
  assert (Hext : has_pdf_extension (filename (Sample.upload 3)))
    by (exists "scan", "PDF"; repeat split).
  assert (Hsize : Z.of_nat (length (stream (Sample.upload 3))) ≤ MAX_FILE_SIZE)
    by (by vm_compute).
  pose proof upload_card_steps as Hsteps. split; [exact Hsteps|].
  destruct Hsteps as (Hrn & Hsave & Hextract).
  exact (upload_removes_saved_file files (Sample.upload 3) _ w _ _ _ _
           (lookup_singleton_eq _ _) Hname Hext Hsize Hrn Hsave Hextract).
Defined.

(** The saved upload is there while the extraction runs and gone when the
    view returns. *)
Example upload_card_saved_then_removed :
  let files : gmap string FileStorage := {[ "file" := Sample.upload 3 ]} in
  let w := Toy.start ∅ 1 in
  let pdf_path := "/app/uploads/883517092697405393766851741526.pdf" in
  let w2 := (open_write pdf_path (stream (Sample.upload 3))
               (generate_random_number 30 w).2).2 in
  w_fs w2 !! pdf_path = Some (stream (Sample.upload 3))
  ∧ w_fs (upload_file files w).2 !! pdf_path = None
  ∧ w_log (upload_file files w).2 = [].
Proof. repeat split; vm_compute; reflexivity. Qed.

Lemma client_filename_not_used_witness :
  let a := mkFileStorage "scan.PDF" [Byte.x25; Byte.x50] in
  let b := mkFileStorage "../../etc/passwd.pdf" [Byte.x25; Byte.x50] in
  let w := Toy.start ∅ 1 in
  (filename a ≠ "" ∧ filename b ≠ ""
   ∧ has_pdf_extension (filename a) ∧ has_pdf_extension (filename b)
   ∧ stream a = stream b)
  ∧ upload_file {[ "file" := a ]} w = upload_file {[ "file" := b ]} w.
Proof.
  intros a b w.
  assert (Ha : has_pdf_extension (filename a)) by (exists "scan", "PDF"; repeat split).
  assert (Hb : has_pdf_extension (filename b))
    by (exists "../../etc/passwd", "pdf"; repeat split).
  split; [by repeat split|].
  exact (client_filename_not_used {[ "file" := a ]} {[ "file" := b ]} a b w
           (lookup_singleton_eq _ _) (lookup_singleton_eq _ _)
           ltac:(done) ltac:(done) Ha Hb eq_refl).
Defined.

End Upload_more_runs.

Section No_upload_more_runs.

#[local] Existing Instance Sample.P_no_upload.

Lemma upload_raises_only_on_save_witness :
  let files : gmap string FileStorage := {[ "file" := Sample.upload 3 ]} in
  let e := Exception "Permission denied" in
  let w' := (upload_file files Sample.w_no_upload).2 in
  upload_file files Sample.w_no_upload = (Raise e, w')
  ∧ ∃ file rn w1,
      files !! "file" = Some file
      ∧ filename file ≠ ""
      ∧ has_pdf_extension (filename file)
      ∧ Z.of_nat (length (stream file)) ≤ MAX_FILE_SIZE
      ∧ generate_random_number 30 Sample.w_no_upload = (Ok rn, w1)
      ∧ open_write (os_path.join UPLOAD_FOLDER (rn +:+ ".pdf")) (stream file) w1
        = (Raise e, w').
Proof.
  intros files e w'.
  assert (Hup : upload_file files Sample.w_no_upload = (Raise e, w')).
  { assert (H1 : (upload_file files Sample.w_no_upload).1 = Raise e)
      by (vm_compute; reflexivity).
    rewrite <- H1. unfold w'. by destruct (upload_file _ _). }
  split; [exact Hup|].
  exact (upload_raises_only_on_save files Sample.w_no_upload w' e Hup).
Defined.

End No_upload_more_runs.

